(** * MechanoAI: the digital twin of a manufacturing machine

    A shallow embedding of [digital_twin.py]: the stochastic state model
    [ManufacturingMachine], the driver [DigitalTwin] that advances it once
    per animation frame and keeps the history, and the properties the
    specification states about them.

    Numbers.  The program computes on Python and NumPy floats.  The
    embedding idealises them as exact rationals ([Q]): the properties below
    are the algebraic ones (clamping, the efficiency factor, the modulo, the
    order of appends), and rounding, infinities and NaN are outside the
    model.  At a zero divisor the source computes an infinity or a NaN
    (the dividend is a NumPy scalar: NumPy warns and goes on, nothing is
    raised).  The rationals have no such value: the embedding stops there
    with the outcome [NonFinite] and says nothing of what follows.

    Randomness.  [np.random.normal] reads NumPy's global generator.  The
    generator is an explicit state here: the sequence of standard normal
    deviates fixed by the seed, and a cursor into it. *)

From Stdlib Require Import QArith Qabs Qminmax Qround ZArith List Lia Lqa.
Import ListNotations.
Open Scope Q_scope.

(** ** Python and NumPy primitives *)

(** The exception the modelled code can raise: an attribute read on an
    object that does not have it. *)
Inductive exn : Type :=
| AttributeError.

(** The outcome of a computation on numbers: a value, or [NonFinite] when
    the source goes on with an infinity or a NaN. *)
Inductive result (A : Type) : Type :=
| Ok (a : A)
| NonFinite.
Arguments Ok {A} a.
Arguments NonFinite {A}.

(** How a method call ends: it returns a value or raises. *)
Inductive outcome (A : Type) : Type :=
| Returned (a : A)
| Raised (e : exn).
Arguments Returned {A} a.
Arguments Raised {A} e.

(** The state of the global generator: [draws] is the sequence of standard
    normal deviates the seed determines, [pos] counts the deviates consumed. *)
Record RandomState : Type := mkRandomState {
  draws : nat -> Q;
  pos : nat
}.

(** Computations that read the generator and may leave the rationals. *)
Definition M (A : Type) : Type := RandomState -> result (A * RandomState).

Definition ret {A : Type} (a : A) : M A := fun rs => Ok (a, rs).

Definition bind {A B : Type} (c : M A) (k : A -> M B) : M B :=
  fun rs =>
    match c rs with
    | Ok (a, rs') => k a rs'
    | NonFinite => NonFinite
    end.

Definition non_finite {A : Type} : M A := fun _ => NonFinite.

Notation "x <- c ;; k" := (bind c (fun x => k))
  (at level 61, c at next level, right associativity).

(** [max(a, b)] of Python on two arguments: the first one unless the second
    is strictly greater. *)
Definition py_max (a b : Q) : Q :=
  if Qlt_le_dec a b then b else a.

(** [x % y] of Python on numbers: the remainder has the sign of [y]. *)
Definition py_mod (x y : Q) : Q :=
  x - y * inject_Z (Qfloor (x / y)).

(** [x / y] on NumPy floats: the quotient, or an infinity or a NaN when
    [y] is zero. *)
Definition py_div (x y : Q) : M Q :=
  if Qeq_bool y 0 then non_finite else ret (x / y).

Module np.

(** [np.clip(a, a_min, a_max)] is [minimum(maximum(a, a_min), a_max)]. *)
Definition clip (a a_min a_max : Q) : Q :=
  Qmin (Qmax a a_min) a_max.

Module random.

Definition standard_normal : M Q :=
  fun rs => Ok (draws rs (pos rs), mkRandomState (draws rs) (S (pos rs))).

(** [np.random.normal(loc, scale)]: one deviate, scaled and shifted. *)
Definition normal (loc scale : Q) : M Q :=
  z <- standard_normal ;;
  ret (loc + scale * z).

End random.

End np.

(** ** The machine *)

Module ManufacturingMachine.

Record t : Type := mk {
  temperature : Q;
  max_temp : Q;
  optimal_temp : Q;
  production_rate : Q;
  power_consumption : Q;
  pressure : Q;
  stress : Q
}.

Definition init (initial_temp max_temp optimal_temp
                 initial_production_rate initial_power : Q) : t :=
  {| temperature := initial_temp;
     max_temp := max_temp;
     optimal_temp := optimal_temp;
     production_rate := initial_production_rate;
     power_consumption := initial_power;
     pressure := 1.0;
     stress := 1.0 |}.

(** The efficiency signal of [update], as a function of the clamped
    temperature. *)
Definition temp_factor (temperature optimal_temp : Q) : M Q :=
  q <- py_div (Qabs (temperature - optimal_temp)) optimal_temp ;;
  ret (1 - q).

Definition update (self : t) : M t :=
  n1 <- np.random.normal 0 2 ;;
  let temperature1 := temperature self + n1 in
  let temperature2 := np.clip temperature1 0 (max_temp self) in
  tf <- temp_factor temperature2 (optimal_temp self) ;;
  n2 <- np.random.normal 0 0.5 ;;
  let production_rate1 := py_max 0 (production_rate self * tf + n2) in
  n3 <- np.random.normal 0 0.2 ;;
  let power1 := power_consumption self + n3 in
  let power2 := np.clip power1 0 100 in
  n4 <- np.random.normal 0 0.1 ;;
  let pressure1 := pressure self + n4 in
  n5 <- np.random.normal 0 0.05 ;;
  let stress1 := stress self + n5 in
  ret {| temperature := temperature2;
         max_temp := max_temp self;
         optimal_temp := optimal_temp self;
         production_rate := production_rate1;
         power_consumption := power2;
         pressure := pressure1;
         stress := stress1 |}.

End ManufacturingMachine.

(** ** The driver *)

(** A line artist of the figure: the data [set_data] gave it. *)
Record Line2D : Type := mkLine2D {
  xdata : list Z;
  ydata : list Q
}.

Definition set_data (x : list Z) (y : list Q) (line : Line2D) : Line2D :=
  {| xdata := x; ydata := y |}.

Module DigitalTwin.

Import ManufacturingMachine.

Record t : Type := mk {
  machine : ManufacturingMachine.t;
  time : list Z;
  temp_history : list Q;
  prod_history : list Q;
  power_history : list Q;
  pressure_history : list Q;
  stress_history : list Q;
  rotation : Q;
  temp_line : Line2D;
  prod_line : Line2D;
  power_line : Line2D;
  pressure_line : Line2D;
  stress_line : Line2D
}.

(** [__init__], together with the five line artists [visualize] creates
    with [plot([], [])] before the animation calls [update]. *)
Definition init (machine : ManufacturingMachine.t) : t :=
  {| machine := machine;
     time := [];
     temp_history := [];
     prod_history := [];
     power_history := [];
     pressure_history := [];
     stress_history := [];
     rotation := 0;
     temp_line := mkLine2D [] [];
     prod_line := mkLine2D [] [];
     power_line := mkLine2D [] [];
     pressure_line := mkLine2D [] [];
     stress_line := mkLine2D [] [] |}.

(** What [update] returns: the five line artists. *)
Definition artists : Type :=
  (Line2D * Line2D * Line2D * Line2D * Line2D)%type.

(** One animation frame.  The redrawing of the axes and of the blade
    model (lines 59 to 113) changes the figure only, reads [rotation] and
    the machine, and is left out. *)
Definition update (self : t) (frame : Z) : M (artists * t) :=
  machine1 <- ManufacturingMachine.update (machine self) ;;
  let time1 := time self ++ [frame] in
  let temp_history1 := temp_history self ++ [temperature machine1] in
  let prod_history1 := prod_history self ++ [production_rate machine1] in
  let power_history1 := power_history self ++ [power_consumption machine1] in
  let pressure_history1 := pressure_history self ++ [pressure machine1] in
  let stress_history1 := stress_history self ++ [stress machine1] in
  let rotation1 := rotation self + production_rate machine1 * 5 in
  let rotation2 := py_mod rotation1 360 in
  let temp_line1 := set_data time1 temp_history1 (temp_line self) in
  let prod_line1 := set_data time1 prod_history1 (prod_line self) in
  let power_line1 := set_data time1 power_history1 (power_line self) in
  let pressure_line1 := set_data time1 pressure_history1 (pressure_line self) in
  let stress_line1 := set_data time1 stress_history1 (stress_line self) in
  ret ((temp_line1, prod_line1, power_line1, pressure_line1, stress_line1),
       {| machine := machine1;
          time := time1;
          temp_history := temp_history1;
          prod_history := prod_history1;
          power_history := power_history1;
          pressure_history := pressure_history1;
          stress_history := stress_history1;
          rotation := rotation2;
          temp_line := temp_line1;
          prod_line := prod_line1;
          power_line := power_line1;
          pressure_line := pressure_line1;
          stress_line := stress_line1 |}).

(** The scheduler: one call of [update] per frame index, in order. *)
Fixpoint run (self : t) (frames : list Z) : M t :=
  match frames with
  | [] => ret self
  | frame :: frames' =>
      r <- update self frame ;;
      run (snd r) frames'
  end.

(** The states the driver goes through, the initial one first. *)
Fixpoint trajectory (self : t) (frames : list Z) : M (list t) :=
  match frames with
  | [] => ret [self]
  | frame :: frames' =>
      r <- update self frame ;;
      tl <- trajectory (snd r) frames' ;;
      ret (self :: tl)
  end.

End DigitalTwin.

(** ** The driver as an object *)

(** [DigitalTwin.update] above is the call the animation makes, on an
    object on which [visualize] has created the figure.  The axes and the
    line artists are attributes [__init__] does not create: [has_figure]
    tells whether the object has them.  While it is [false] the five line
    fields of [attrs] are not attributes of the object. *)
Module DigitalTwinObject.

Import ManufacturingMachine DigitalTwin.

Record t : Type := mk {
  attrs : DigitalTwin.t;
  has_figure : bool
}.

(** [DigitalTwin(machine)]: lines 31 to 39 and nothing else. *)
Definition init (machine : ManufacturingMachine.t) : t :=
  {| attrs := DigitalTwin.init machine; has_figure := false |}.


(** Lines 42 to 51 of [update]: the machine, the histories, the rotation. *)
Definition simulate (self : DigitalTwin.t) (frame : Z) : M DigitalTwin.t :=
  machine1 <- ManufacturingMachine.update (machine self) ;;
  ret {| machine := machine1;
         time := time self ++ [frame];
         temp_history := temp_history self ++ [temperature machine1];
         prod_history := prod_history self ++ [production_rate machine1];
         power_history :=
           power_history self ++ [power_consumption machine1];
         pressure_history := pressure_history self ++ [pressure machine1];
         stress_history := stress_history self ++ [stress machine1];
         rotation :=
           py_mod (rotation self + production_rate machine1 * 5) 360;
         temp_line := temp_line self;
         prod_line := prod_line self;
         power_line := power_line self;
         pressure_line := pressure_line self;
         stress_line := stress_line self |}.

(** Lines 53 to 57 and 115 of [update]: the data of the five lines, and
    the value returned. *)
Definition draw (self : DigitalTwin.t) : artists * DigitalTwin.t :=
  let temp_line1 :=
    set_data (time self) (temp_history self) (temp_line self) in
  let prod_line1 :=
    set_data (time self) (prod_history self) (prod_line self) in
  let power_line1 :=
    set_data (time self) (power_history self) (power_line self) in
  let pressure_line1 :=
    set_data (time self) (pressure_history self) (pressure_line self) in
  let stress_line1 :=
    set_data (time self) (stress_history self) (stress_line self) in
  ((temp_line1, prod_line1, power_line1, pressure_line1, stress_line1),
   {| machine := machine self;
      time := time self;
      temp_history := temp_history self;
      prod_history := prod_history self;
      power_history := power_history self;
      pressure_history := pressure_history self;
      stress_history := stress_history self;
      rotation := rotation self;
      temp_line := temp_line1;
      prod_line := prod_line1;
      power_line := power_line1;
      pressure_line := pressure_line1;
      stress_line := stress_line1 |}).

(** [update] as a method of the object: the read of [self.temp_line] on
    line 53 raises [AttributeError] when the figure has not been created,
    after lines 42 to 51 have changed the object. *)
Definition update (self : t) (frame : Z) : M (outcome artists * t) :=
  attrs1 <- simulate (attrs self) frame ;;
  if has_figure self
  then
    let r := draw attrs1 in
    ret (Returned (fst r), {| attrs := snd r; has_figure := true |})
  else
    ret (Raised AttributeError, {| attrs := attrs1; has_figure := false |}).

End DigitalTwinObject.

(** The objects the script builds (lines 147 and 148). *)
Definition machine : ManufacturingMachine.t :=
  ManufacturingMachine.init 70 100 75 10 50.

Definition digital_twin : DigitalTwin.t := DigitalTwin.init machine.

(** The frame indices [FuncAnimation(frames=n)] passes: [0 .. n-1]. *)
Definition frame_seq (n : nat) : list Z := map Z.of_nat (seq 0 n).

(** A generator whose deviates are all zero. *)
Definition zero_noise : RandomState := mkRandomState (fun _ => 0) 0.

(** ** Vocabulary of the properties *)

(** The generator after [k] more deviates have been consumed. *)
Definition advance (k : nat) (rs : RandomState) : RandomState :=
  mkRandomState (draws rs) (k + pos rs).

(** The [i]-th deviate a computation started in [rs] consumes. *)
Definition noise_at (rs : RandomState) (i : nat) : Q :=
  draws rs (i + pos rs).

(** The outcome of a computation without the generator it leaves. *)
Definition value {A : Type} (r : result (A * RandomState)) : result A :=
  match r with
  | Ok (a, _) => Ok a
  | NonFinite => NonFinite
  end.

(** The machine [update] produces from [self] with the deviates
    [z1 .. z5], in the order the code draws them, when the division
    succeeds. *)
Definition stepped (self : ManufacturingMachine.t) (z1 z2 z3 z4 z5 : Q)
  : ManufacturingMachine.t :=
  let temperature' :=
    np.clip (ManufacturingMachine.temperature self + (0 + 2 * z1)) 0
            (ManufacturingMachine.max_temp self) in
  let tf :=
    1 - Qabs (temperature' - ManufacturingMachine.optimal_temp self)
        / ManufacturingMachine.optimal_temp self in
  {| ManufacturingMachine.temperature := temperature';
     ManufacturingMachine.max_temp := ManufacturingMachine.max_temp self;
     ManufacturingMachine.optimal_temp :=
       ManufacturingMachine.optimal_temp self;
     ManufacturingMachine.production_rate :=
       py_max 0 (ManufacturingMachine.production_rate self * tf
                 + (0 + 0.5 * z2));
     ManufacturingMachine.power_consumption :=
       np.clip (ManufacturingMachine.power_consumption self + (0 + 0.2 * z3))
               0 100;
     ManufacturingMachine.pressure :=
       ManufacturingMachine.pressure self + (0 + 0.1 * z4);
     ManufacturingMachine.stress :=
       ManufacturingMachine.stress self + (0 + 0.05 * z5) |}.

(** The machine [update] produces from [self] when it starts in the
    generator state [rs]. *)
Definition updated (self : ManufacturingMachine.t) (rs : RandomState)
  : ManufacturingMachine.t :=
  stepped self (noise_at rs 0) (noise_at rs 1) (noise_at rs 2)
          (noise_at rs 3) (noise_at rs 4).

(** The bounds of the data model. *)
Definition bounds_ok (m : ManufacturingMachine.t) : Prop :=
  (0 <= ManufacturingMachine.temperature m
   /\ ManufacturingMachine.temperature m <= ManufacturingMachine.max_temp m)
  /\ (0 <= ManufacturingMachine.power_consumption m
      /\ ManufacturingMachine.power_consumption m <= 100)
  /\ 0 <= ManufacturingMachine.production_rate m.

Fixpoint strictly_increasing (l : list Z) : bool :=
  match l with
  | [] => true
  | x :: l' =>
      match l' with
      | [] => true
      | y :: _ => (x <? y)%Z && strictly_increasing l'
      end
  end.

(** Whether the number [q] is one of the coordinates a line artist holds. *)
Definition holds_value (q : Q) (line : Line2D) : bool :=
  existsb (fun x => Qeq_bool q (inject_Z x)) (xdata line)
  || existsb (Qeq_bool q) (ydata line).

(** The machine after [n] updates started in the generator state [rs],
    when no division fails. *)
Fixpoint updated_n (m : ManufacturingMachine.t) (rs : RandomState) (n : nat)
  : ManufacturingMachine.t :=
  match n with
  | O => m
  | S n' => updated_n (updated m rs) (advance 5 rs) n'
  end.

(** The sum of the [k]-th deviate of each of the next [n] updates. *)
Fixpoint noise_sum (rs : RandomState) (k n : nat) : Q :=
  match n with
  | O => 0
  | S n' => noise_at rs k + noise_sum (advance 5 rs) k n'
  end.

Fixpoint Qsum (l : list Q) : Q :=
  match l with
  | [] => 0
  | x :: l' => x + Qsum l'
  end.

Fixpoint Qpow (q : Q) (n : nat) : Q :=
  match n with
  | O => 1
  | S n' => q * Qpow q n'
  end.

(** The values of the quantity [f] of the machine in the states of a
    trajectory after the initial one. *)
Definition recorded (f : ManufacturingMachine.t -> Q)
    (tr : list DigitalTwin.t) : list Q :=
  map (fun x => f (DigitalTwin.machine x)) (tl tr).

(** The six histories have one entry per frame, and every line artist as
    many abscissas as ordinates. *)
Definition aligned (d : DigitalTwin.t) : Prop :=
  length (DigitalTwin.temp_history d) = length (DigitalTwin.time d)
  /\ length (DigitalTwin.prod_history d) = length (DigitalTwin.time d)
  /\ length (DigitalTwin.power_history d) = length (DigitalTwin.time d)
  /\ length (DigitalTwin.pressure_history d) = length (DigitalTwin.time d)
  /\ length (DigitalTwin.stress_history d) = length (DigitalTwin.time d)
  /\ Forall (fun l => length (xdata l) = length (ydata l))
            [DigitalTwin.temp_line d; DigitalTwin.prod_line d;
             DigitalTwin.power_line d; DigitalTwin.pressure_line d;
             DigitalTwin.stress_line d].

(** Two driver states that differ at most in the frame indices recorded
    (the time axis and the abscissas of the lines). *)
Definition same_physics (d1 d2 : DigitalTwin.t) : Prop :=
  DigitalTwin.machine d1 = DigitalTwin.machine d2
  /\ DigitalTwin.rotation d1 = DigitalTwin.rotation d2
  /\ DigitalTwin.temp_history d1 = DigitalTwin.temp_history d2
  /\ DigitalTwin.prod_history d1 = DigitalTwin.prod_history d2
  /\ DigitalTwin.power_history d1 = DigitalTwin.power_history d2
  /\ DigitalTwin.pressure_history d1 = DigitalTwin.pressure_history d2
  /\ DigitalTwin.stress_history d1 = DigitalTwin.stress_history d2
  /\ map ydata [DigitalTwin.temp_line d1; DigitalTwin.prod_line d1;
                DigitalTwin.power_line d1; DigitalTwin.pressure_line d1;
                DigitalTwin.stress_line d1]
     = map ydata [DigitalTwin.temp_line d2; DigitalTwin.prod_line d2;
                  DigitalTwin.power_line d2; DigitalTwin.pressure_line d2;
                  DigitalTwin.stress_line d2].

(** The efficiency factor at the current temperature of a machine whose
    [optimal_temp] is not zero. *)
Definition factor (m : ManufacturingMachine.t) : Q :=
  1 - Qabs (ManufacturingMachine.temperature m
            - ManufacturingMachine.optimal_temp m)
      / ManufacturingMachine.optimal_temp m.

(** The conditions under which neither clamp nor the floor of the
    production rate acts when the noise is zero. *)
Definition settled (m : ManufacturingMachine.t) : Prop :=
  0 < ManufacturingMachine.optimal_temp m
  /\ 0 <= ManufacturingMachine.temperature m
  /\ ManufacturingMachine.temperature m <= ManufacturingMachine.max_temp m
  /\ ManufacturingMachine.temperature m
     <= ManufacturingMachine.optimal_temp m * 2
  /\ 0 <= ManufacturingMachine.power_consumption m
  /\ ManufacturingMachine.power_consumption m <= 100
  /\ 0 <= ManufacturingMachine.production_rate m.

(** ** Arithmetic of the primitives *)

Lemma clip_le_max (a a_min a_max : Q) : np.clip a a_min a_max <= a_max.
Proof. unfold np.clip. apply Q.le_min_r. Qed.

Lemma clip_ge_min (a a_min a_max : Q) :
  a_min <= a_max -> a_min <= np.clip a a_min a_max.
Proof.
  intros Hle. unfold np.clip.
  apply Q.min_glb; [apply Q.le_max_r | exact Hle].
Qed.

Lemma clip_id (a a_min a_max : Q) :
  a_min <= a -> a <= a_max -> np.clip a a_min a_max == a.
Proof.
  intros Hlo Hhi. unfold np.clip.
  rewrite (Q.max_l a a_min Hlo). apply Q.min_l. exact Hhi.
Qed.

Lemma py_max_ge_l (a b : Q) : a <= py_max a b.
Proof.
  unfold py_max. destruct (Qlt_le_dec a b) as [Hlt | Hle].
  - apply Qlt_le_weak. exact Hlt.
  - apply Qle_refl.
Qed.

Lemma py_max_spec (a b : Q) : py_max a b == Qmax a b.
Proof.
  unfold py_max. destruct (Qlt_le_dec a b) as [Hlt | Hle].
  - symmetry. apply Q.max_r. apply Qlt_le_weak. exact Hlt.
  - symmetry. apply Q.max_l. exact Hle.
Qed.

Lemma py_mod_range (x y : Q) : 0 < y -> 0 <= py_mod x y /\ py_mod x y < y.
Proof.
  intros Hy. unfold py_mod.
  assert (Hne : ~ y == 0) by (intros E; rewrite E in Hy; discriminate).
  pose proof (Qfloor_le (x / y)) as Hlo.
  pose proof (Qlt_floor (x / y)) as Hhi.
  set (k := Qfloor (x / y)) in *.
  assert (Hx : x == y * (x / y)) by (field; exact Hne).
  rewrite inject_Z_plus in Hhi. change (inject_Z 1) with 1 in Hhi.
  split.
  - assert (y * inject_Z k <= y * (x / y)) by
      (apply Qmult_le_l; assumption).
    lra.
  - assert (y * (x / y) < y * (inject_Z k + 1)) by
      (apply Qmult_lt_l; assumption).
    lra.
Qed.

(** ** One update of the machine *)

Section MachineUpdate.

Import ManufacturingMachine.

Variable self : ManufacturingMachine.t.
Variable rs : RandomState.

(** [update] unfolded: it leaves the rationals exactly on a zero
    [optimal_temp], and
    otherwise consumes five deviates. *)
Lemma update_unfold :
  update self rs =
  if Qeq_bool (optimal_temp self) 0 then NonFinite
  else Ok (updated self rs, advance 5 rs).
Proof.
  unfold update, temp_factor, py_div, np.random.normal,
    np.random.standard_normal, bind, ret, non_finite.
  cbn [draws pos].
  destruct (Qeq_bool (optimal_temp self) 0); reflexivity.
Qed.

Lemma update_ok :
  ~ optimal_temp self == 0 ->
  update self rs = Ok (updated self rs, advance 5 rs).
Proof.
  intros Hne. rewrite update_unfold.
  destruct (Qeq_bool (optimal_temp self) 0) eqn:E; [ | reflexivity].
  apply Qeq_bool_iff in E. contradiction.
Qed.

Lemma update_non_finite :
  optimal_temp self == 0 -> update self rs = NonFinite.
Proof.
  intros Hz. rewrite update_unfold.
  apply Qeq_bool_iff in Hz. rewrite Hz. reflexivity.
Qed.

End MachineUpdate.

Lemma stepped_bounds (m : ManufacturingMachine.t) (z1 z2 z3 z4 z5 : Q) :
  0 <= ManufacturingMachine.max_temp m ->
  bounds_ok (stepped m z1 z2 z3 z4 z5).
Proof.
  intros Hmax. unfold bounds_ok, stepped; cbn.
  repeat split.
  - apply clip_ge_min. exact Hmax.
  - apply clip_le_max.
  - apply clip_ge_min. discriminate.
  - apply clip_le_max.
  - apply py_max_ge_l.
Qed.

(** ** One frame of the driver *)

Lemma advance_advance (j k : nat) (rs : RandomState) :
  advance j (advance k rs) = advance (j + k) rs.
Proof.
  unfold advance; cbn. f_equal. lia.
Qed.

Lemma noise_at_advance (k i : nat) (rs : RandomState) :
  noise_at (advance k rs) i = noise_at rs (i + k).
Proof.
  unfold noise_at, advance; cbn. f_equal. lia.
Qed.

Section TwinUpdate.

Import ManufacturingMachine DigitalTwin.

Variable self : DigitalTwin.t.
Variable frame : Z.
Variable rs : RandomState.

(** The frame leaves the rationals when the machine does. *)
Lemma twin_update_non_finite :
  optimal_temp (machine self) == 0 ->
  DigitalTwin.update self frame rs = NonFinite.
Proof.
  intros Hz. unfold DigitalTwin.update, bind.
  rewrite (update_non_finite _ _ Hz). reflexivity.
Qed.

Lemma twin_update_ok :
  ~ optimal_temp (machine self) == 0 ->
  exists r : artists * DigitalTwin.t,
    let m' := updated (machine self) rs in
    DigitalTwin.update self frame rs = Ok (r, advance 5 rs)
    /\ machine (snd r) = m'
    /\ time (snd r) = time self ++ [frame]
    /\ temp_history (snd r) = temp_history self ++ [temperature m']
    /\ prod_history (snd r) = prod_history self ++ [production_rate m']
    /\ power_history (snd r) = power_history self ++ [power_consumption m']
    /\ pressure_history (snd r) = pressure_history self ++ [pressure m']
    /\ stress_history (snd r) = stress_history self ++ [stress m']
    /\ rotation (snd r) = py_mod (rotation self + production_rate m' * 5) 360
    /\ fst r = (temp_line (snd r), prod_line (snd r), power_line (snd r),
                pressure_line (snd r), stress_line (snd r))
    /\ temp_line (snd r) = mkLine2D (time (snd r)) (temp_history (snd r))
    /\ prod_line (snd r) = mkLine2D (time (snd r)) (prod_history (snd r))
    /\ power_line (snd r) = mkLine2D (time (snd r)) (power_history (snd r))
    /\ pressure_line (snd r)
       = mkLine2D (time (snd r)) (pressure_history (snd r))
    /\ stress_line (snd r)
       = mkLine2D (time (snd r)) (stress_history (snd r)).
Proof.
  intros Hne. unfold DigitalTwin.update, bind.
  rewrite (update_ok _ _ Hne). unfold ret.
  eexists. cbv zeta. split; [reflexivity | ].
  cbn. repeat split.
Qed.

End TwinUpdate.

(** ** Runs of the scheduler *)

Section Runs.

Import ManufacturingMachine DigitalTwin.

(** A property every frame preserves holds after any run, and a run on a
    machine with a non-zero [optimal_temp] goes through. *)
Lemma run_preserves (P : DigitalTwin.t -> Prop) :
  (forall d frame rs r rs',
      ~ optimal_temp (machine d) == 0 ->
      P d ->
      DigitalTwin.update d frame rs = Ok (r, rs') ->
      P (snd r)) ->
  forall (frames : list Z) (d : DigitalTwin.t) (rs : RandomState),
    ~ optimal_temp (machine d) == 0 ->
    P d ->
    exists d',
      run d frames rs = Ok (d', advance (5 * length frames) rs)
      /\ P d'
      /\ optimal_temp (machine d') = optimal_temp (machine d)
      /\ max_temp (machine d') = max_temp (machine d).
Proof.
  intros Hstep. induction frames as [ | frame frames IH]; intros d rs Hne HP.
  - exists d. cbn. unfold ret, advance. destruct rs; cbn. repeat split.
    exact HP.
  - destruct (twin_update_ok d frame rs Hne)
      as (r & Hup & Hm & _).
    assert (Hopt : optimal_temp (machine (snd r)) = optimal_temp (machine d))
      by (rewrite Hm; reflexivity).
    assert (Hmax : max_temp (machine (snd r)) = max_temp (machine d))
      by (rewrite Hm; reflexivity).
    assert (Hne' : ~ optimal_temp (machine (snd r)) == 0)
      by (rewrite Hopt; exact Hne).
    destruct (IH (snd r) (advance 5 rs) Hne' (Hstep _ _ _ _ _ Hne HP Hup))
      as (d' & Hrun & HP' & Hopt' & Hmax').
    exists d'. cbn [run]. unfold bind at 1. rewrite Hup.
    rewrite Hrun, advance_advance.
    repeat split.
    + do 2 f_equal. f_equal. cbn [length]. lia.
    + exact HP'.
    + congruence.
    + congruence.
Qed.

End Runs.

(** ** The bounds of the machine *)

Lemma twin_update_bounds (d : DigitalTwin.t) (frame : Z) (rs rs' : RandomState)
    (r : DigitalTwin.artists * DigitalTwin.t) :
  0 <= ManufacturingMachine.max_temp (DigitalTwin.machine d) ->
  ~ ManufacturingMachine.optimal_temp (DigitalTwin.machine d) == 0 ->
  DigitalTwin.update d frame rs = Ok (r, rs') ->
  bounds_ok (DigitalTwin.machine (snd r))
  /\ ManufacturingMachine.max_temp (DigitalTwin.machine (snd r))
     = ManufacturingMachine.max_temp (DigitalTwin.machine d).
Proof.
  intros Hmax Hne Hup.
  destruct (twin_update_ok d frame rs Hne) as (r0 & Hup0 & Hm & _).
  rewrite Hup0 in Hup. injection Hup as Hr _. subst r0.
  rewrite Hm. split.
  - apply stepped_bounds. exact Hmax.
  - reflexivity.
Qed.

(** C1. For every machine constructed with parameters inside the documented
    bounds ([0 <= initial_temp <= max_temp], [0 <= initial_power <= 100],
    [initial_production_rate >= 0], [optimal_temp] not zero), every seed and
    every number of frames, the run of the driver goes through and leaves a
    machine with [0 <= temperature <= max_temp],
    [0 <= power_consumption <= 100] and [production_rate >= 0]. *)
Theorem bounds_invariant
    (initial_temp max_temp optimal_temp initial_production_rate
       initial_power : Q)
    (frames : list Z) (rs : RandomState) :
  0 <= initial_temp -> initial_temp <= max_temp ->
  0 <= initial_power -> initial_power <= 100 ->
  0 <= initial_production_rate ->
  ~ optimal_temp == 0 ->
  exists d' : DigitalTwin.t,
    DigitalTwin.run
      (DigitalTwin.init
         (ManufacturingMachine.init initial_temp max_temp optimal_temp
            initial_production_rate initial_power))
      frames rs
    = Ok (d', advance (5 * length frames) rs)
    /\ bounds_ok (DigitalTwin.machine d').
Proof.
  intros Ht0 Ht1 Hp0 Hp1 Hr0 Hne.
  set (d := DigitalTwin.init _).
  destruct (run_preserves
              (fun x => bounds_ok (DigitalTwin.machine x)
                        /\ 0 <= ManufacturingMachine.max_temp
                                  (DigitalTwin.machine x))) with
    (frames := frames) (d := d) (rs := rs) as (d' & Hrun & [Hb _] & _).
  - intros x frame rs0 r rs0' Hx [_ Hmax] Hup.
    destruct (twin_update_bounds x frame rs0 rs0' r Hmax Hx Hup) as [Hb Heq].
    split; [exact Hb | rewrite Heq; exact Hmax].
  - exact Hne.
  - split.
    + unfold bounds_ok; cbn. repeat split; assumption.
    + cbn. apply Qle_trans with initial_temp; assumption.
  - exists d'. split; assumption.
Qed.

(** The machine of the script, ten frames and a constant generator. *)
Lemma bounds_invariant_witness :
  exists d' : DigitalTwin.t,
    DigitalTwin.run digital_twin (frame_seq 10) (mkRandomState (fun _ => 3) 0)
    = Ok (d', advance 50 (mkRandomState (fun _ => 3) 0))
    /\ bounds_ok (DigitalTwin.machine d').
Proof.
  apply (bounds_invariant 70 100 75 10 50 (frame_seq 10)
           (mkRandomState (fun _ => 3) 0)); vm_compute; discriminate.
Defined.

(** ** The scenario of the script with the noise forced to zero *)

(** C2. For the machine of the script (70, 100, 75, 10, 50), one update in
    which the five deviates drawn are zero computes the efficiency factor
    14/15 and the production rate 28/3, and leaves the temperature at 70,
    the power at 50, the pressure and the stress at 1. *)
Theorem zero_noise_scenario (rs : RandomState) :
  (forall i : nat, (i < 5)%nat -> noise_at rs i == 0) ->
  exists (m' : ManufacturingMachine.t) (tf : Q),
    ManufacturingMachine.update machine rs = Ok (m', advance 5 rs)
    /\ value (ManufacturingMachine.temp_factor
                (ManufacturingMachine.temperature m')
                (ManufacturingMachine.optimal_temp machine) rs) = Ok tf
    /\ tf == 14 # 15
    /\ ManufacturingMachine.production_rate m' == 28 # 3
    /\ ManufacturingMachine.temperature m' == 70
    /\ ManufacturingMachine.power_consumption m' == 50
    /\ ManufacturingMachine.pressure m' == 1.0
    /\ ManufacturingMachine.stress m' == 1.0.
Proof.
  intros Hz.
  assert (H0 := Hz 0%nat ltac:(lia)). assert (H1 := Hz 1%nat ltac:(lia)).
  assert (H2 := Hz 2%nat ltac:(lia)). assert (H3 := Hz 3%nat ltac:(lia)).
  assert (H4 := Hz 4%nat ltac:(lia)).
  assert (Hne : ~ ManufacturingMachine.optimal_temp machine == 0)
    by (cbn; discriminate).
  rewrite (update_ok machine rs Hne).
  unfold updated. set (m' := stepped machine _ _ _ _ _).
  assert (Ht : ManufacturingMachine.temperature m' == 70).
  { unfold m', stepped; cbn.
    rewrite clip_id; lra. }
  assert (Habs : Qabs (ManufacturingMachine.temperature m' - 75) == 5).
  { rewrite Ht. reflexivity. }
  exists m', (1 - Qabs (ManufacturingMachine.temperature m' - 75) / 75).
  split; [reflexivity | ].
  split; [reflexivity | ].
  split; [rewrite Habs; reflexivity | ].
  split.
  { unfold m', stepped; cbn. fold m'.
    change (ManufacturingMachine.temperature m') with
      (np.clip (70 + (0 + 2 * noise_at rs 0)) 0 100) in Habs.
    rewrite py_max_spec, Habs, H1.
    rewrite Q.max_r by discriminate. reflexivity. }
  split; [exact Ht | ].
  split.
  { unfold m', stepped; cbn. rewrite clip_id; lra. }
  split.
  - unfold m', stepped; cbn. rewrite H3. reflexivity.
  - unfold m', stepped; cbn. rewrite H4. reflexivity.
Qed.

Lemma zero_noise_scenario_witness :
  exists (m' : ManufacturingMachine.t) (tf : Q),
    ManufacturingMachine.update machine zero_noise
    = Ok (m', advance 5 zero_noise)
    /\ value (ManufacturingMachine.temp_factor
                (ManufacturingMachine.temperature m')
                (ManufacturingMachine.optimal_temp machine) zero_noise)
       = Ok tf
    /\ tf == 14 # 15
    /\ ManufacturingMachine.production_rate m' == 28 # 3
    /\ ManufacturingMachine.temperature m' == 70
    /\ ManufacturingMachine.power_consumption m' == 50
    /\ ManufacturingMachine.pressure m' == 1.0
    /\ ManufacturingMachine.stress m' == 1.0.
Proof.
  apply (zero_noise_scenario zero_noise).
  intros i _. reflexivity.
Defined.

(** ** The effects of one frame *)

(** C3. One call of the driver's [update] on a machine whose [optimal_temp]
    is not zero updates the machine once (the machine it leaves is the one
    a single [ManufacturingMachine.update] produces from the same generator,
    and five deviates are consumed), appends the frame index and the five
    updated quantities to the histories, and sets the rotation to
    [(rotation + production_rate * 5) % 360] with the updated rate. *)
Theorem tick_effects (self : DigitalTwin.t) (frame : Z) (rs : RandomState) :
  ~ ManufacturingMachine.optimal_temp (DigitalTwin.machine self) == 0 ->
  exists (m' : ManufacturingMachine.t)
         (r : DigitalTwin.artists * DigitalTwin.t),
    ManufacturingMachine.update (DigitalTwin.machine self) rs
    = Ok (m', advance 5 rs)
    /\ DigitalTwin.update self frame rs = Ok (r, advance 5 rs)
    /\ DigitalTwin.machine (snd r) = m'
    /\ DigitalTwin.time (snd r) = DigitalTwin.time self ++ [frame]
    /\ DigitalTwin.temp_history (snd r)
       = DigitalTwin.temp_history self ++ [ManufacturingMachine.temperature m']
    /\ DigitalTwin.prod_history (snd r)
       = DigitalTwin.prod_history self
         ++ [ManufacturingMachine.production_rate m']
    /\ DigitalTwin.power_history (snd r)
       = DigitalTwin.power_history self
         ++ [ManufacturingMachine.power_consumption m']
    /\ DigitalTwin.pressure_history (snd r)
       = DigitalTwin.pressure_history self ++ [ManufacturingMachine.pressure m']
    /\ DigitalTwin.stress_history (snd r)
       = DigitalTwin.stress_history self ++ [ManufacturingMachine.stress m']
    /\ DigitalTwin.rotation (snd r)
       = py_mod (DigitalTwin.rotation self
                 + ManufacturingMachine.production_rate m' * 5) 360.
Proof.
  intros Hne.
  destruct (twin_update_ok self frame rs Hne)
    as (r & Hup & Hm & Htime & Htemp & Hprod & Hpow & Hpres & Hstr & Hrot & _).
  eexists. exists r.
  split; [apply update_ok; exact Hne | ].
  repeat split; assumption.
Qed.

Lemma tick_effects_witness :
  exists (m' : ManufacturingMachine.t)
         (r : DigitalTwin.artists * DigitalTwin.t),
    ManufacturingMachine.update (DigitalTwin.machine digital_twin) zero_noise
    = Ok (m', advance 5 zero_noise)
    /\ DigitalTwin.update digital_twin 7 zero_noise
       = Ok (r, advance 5 zero_noise)
    /\ DigitalTwin.machine (snd r) = m'
    /\ DigitalTwin.time (snd r) = DigitalTwin.time digital_twin ++ [7%Z]
    /\ DigitalTwin.temp_history (snd r)
       = DigitalTwin.temp_history digital_twin
         ++ [ManufacturingMachine.temperature m']
    /\ DigitalTwin.prod_history (snd r)
       = DigitalTwin.prod_history digital_twin
         ++ [ManufacturingMachine.production_rate m']
    /\ DigitalTwin.power_history (snd r)
       = DigitalTwin.power_history digital_twin
         ++ [ManufacturingMachine.power_consumption m']
    /\ DigitalTwin.pressure_history (snd r)
       = DigitalTwin.pressure_history digital_twin
         ++ [ManufacturingMachine.pressure m']
    /\ DigitalTwin.stress_history (snd r)
       = DigitalTwin.stress_history digital_twin
         ++ [ManufacturingMachine.stress m']
    /\ DigitalTwin.rotation (snd r)
       = py_mod (DigitalTwin.rotation digital_twin
                 + ManufacturingMachine.production_rate m' * 5) 360.
Proof.
  apply (tick_effects digital_twin 7 zero_noise).
  vm_compute. discriminate.
Defined.

(** ** What one frame returns *)

(** C4, as stated, fails. The claim that [update] returns the six current
    values, rotation included, fails on the first frame of the script with
    the noise at zero: the call returns five line artists whose points are
    the frame index and the five machine quantities, and the rotation it
    has just computed, 140/3, is in none of them. *)
Lemma tick_return_lacks_rotation :
  exists r : DigitalTwin.artists * DigitalTwin.t,
    value (DigitalTwin.update digital_twin 0 zero_noise) = Ok r
    /\ DigitalTwin.rotation (snd r) == 140 # 3
    /\ (let '(l1, l2, l3, l4, l5) := fst r in
        Forall (fun l => xdata l = [0%Z]) [l1; l2; l3; l4; l5]
        /\ Forall2 Qeq (ydata l1) [70]
        /\ Forall2 Qeq (ydata l2) [28 # 3]
        /\ Forall2 Qeq (ydata l3) [50]
        /\ Forall2 Qeq (ydata l4) [1]
        /\ Forall2 Qeq (ydata l5) [1]
        /\ existsb (holds_value (DigitalTwin.rotation (snd r)))
                   [l1; l2; l3; l4; l5] = false).
Proof.
  eexists. split; [vm_compute; reflexivity | ].
  split; [vm_compute; reflexivity | ].
  cbn [fst].
  split; [repeat constructor | ].
  repeat split; repeat constructor; vm_compute; reflexivity.
Qed.

Lemma last_snoc {A : Type} (l : list A) (x d : A) : last (l ++ [x]) d = x.
Proof. apply last_last. Qed.

(** C4, as the code has it. One call of [update] on a machine whose
    [optimal_temp] is not zero returns the five line artists of the
    temperature, the production rate, the power, the pressure and the
    stress; each holds the frame indices as abscissas and the history of
    its quantity as ordinates, so its last point is the frame index just
    passed and the updated value of the quantity. *)
Theorem tick_returns_artists
    (self : DigitalTwin.t) (frame : Z) (rs : RandomState) :
  ~ ManufacturingMachine.optimal_temp (DigitalTwin.machine self) == 0 ->
  exists r : DigitalTwin.artists * DigitalTwin.t,
    DigitalTwin.update self frame rs = Ok (r, advance 5 rs)
    /\ fst r
       = (mkLine2D (DigitalTwin.time (snd r))
                   (DigitalTwin.temp_history (snd r)),
          mkLine2D (DigitalTwin.time (snd r))
                   (DigitalTwin.prod_history (snd r)),
          mkLine2D (DigitalTwin.time (snd r))
                   (DigitalTwin.power_history (snd r)),
          mkLine2D (DigitalTwin.time (snd r))
                   (DigitalTwin.pressure_history (snd r)),
          mkLine2D (DigitalTwin.time (snd r))
                   (DigitalTwin.stress_history (snd r)))
    /\ last (DigitalTwin.time (snd r)) 0%Z = frame
    /\ last (DigitalTwin.temp_history (snd r)) 0
       = ManufacturingMachine.temperature (DigitalTwin.machine (snd r))
    /\ last (DigitalTwin.prod_history (snd r)) 0
       = ManufacturingMachine.production_rate (DigitalTwin.machine (snd r))
    /\ last (DigitalTwin.power_history (snd r)) 0
       = ManufacturingMachine.power_consumption (DigitalTwin.machine (snd r))
    /\ last (DigitalTwin.pressure_history (snd r)) 0
       = ManufacturingMachine.pressure (DigitalTwin.machine (snd r))
    /\ last (DigitalTwin.stress_history (snd r)) 0
       = ManufacturingMachine.stress (DigitalTwin.machine (snd r)).
Proof.
  intros Hne.
  destruct (twin_update_ok self frame rs Hne)
    as (r & Hup & Hm & Htime & Htemp & Hprod & Hpow & Hpres & Hstr & _
        & Hret & Hl1 & Hl2 & Hl3 & Hl4 & Hl5).
  exists r. split; [exact Hup | ].
  split; [rewrite Hret, Hl1, Hl2, Hl3, Hl4, Hl5; reflexivity | ].
  rewrite Htime, Htemp, Hprod, Hpow, Hpres, Hstr, Hm.
  rewrite !last_snoc. repeat split.
Qed.

Lemma tick_returns_artists_witness :
  exists r : DigitalTwin.artists * DigitalTwin.t,
    DigitalTwin.update digital_twin 3 zero_noise
    = Ok (r, advance 5 zero_noise)
    /\ fst r
       = (mkLine2D (DigitalTwin.time (snd r))
                   (DigitalTwin.temp_history (snd r)),
          mkLine2D (DigitalTwin.time (snd r))
                   (DigitalTwin.prod_history (snd r)),
          mkLine2D (DigitalTwin.time (snd r))
                   (DigitalTwin.power_history (snd r)),
          mkLine2D (DigitalTwin.time (snd r))
                   (DigitalTwin.pressure_history (snd r)),
          mkLine2D (DigitalTwin.time (snd r))
                   (DigitalTwin.stress_history (snd r)))
    /\ last (DigitalTwin.time (snd r)) 0%Z = 3%Z
    /\ last (DigitalTwin.temp_history (snd r)) 0
       = ManufacturingMachine.temperature (DigitalTwin.machine (snd r))
    /\ last (DigitalTwin.prod_history (snd r)) 0
       = ManufacturingMachine.production_rate (DigitalTwin.machine (snd r))
    /\ last (DigitalTwin.power_history (snd r)) 0
       = ManufacturingMachine.power_consumption (DigitalTwin.machine (snd r))
    /\ last (DigitalTwin.pressure_history (snd r)) 0
       = ManufacturingMachine.pressure (DigitalTwin.machine (snd r))
    /\ last (DigitalTwin.stress_history (snd r)) 0
       = ManufacturingMachine.stress (DigitalTwin.machine (snd r)).
Proof.
  apply (tick_returns_artists digital_twin 3 zero_noise).
  vm_compute. discriminate.
Defined.

(** ** The rotation angle *)

Lemma twin_update_rotation (d : DigitalTwin.t) (frame : Z)
    (rs rs' : RandomState) (r : DigitalTwin.artists * DigitalTwin.t) :
  ~ ManufacturingMachine.optimal_temp (DigitalTwin.machine d) == 0 ->
  DigitalTwin.update d frame rs = Ok (r, rs') ->
  0 <= DigitalTwin.rotation (snd r) /\ DigitalTwin.rotation (snd r) < 360.
Proof.
  intros Hne Hup.
  destruct (twin_update_ok d frame rs Hne)
    as (r0 & Hup0 & _ & _ & _ & _ & _ & _ & _ & Hrot & _).
  rewrite Hup0 in Hup. injection Hup as Hr _. subst r0.
  rewrite Hrot. apply py_mod_range. reflexivity.
Qed.

(** C5. From every driver state whose rotation is 0 (and whose machine has
    a non-zero [optimal_temp]), every finite sequence of frames goes through
    and leaves a rotation in the interval [0, 360). *)
Theorem rotation_wraparound
    (d : DigitalTwin.t) (frames : list Z) (rs : RandomState) :
  DigitalTwin.rotation d == 0 ->
  ~ ManufacturingMachine.optimal_temp (DigitalTwin.machine d) == 0 ->
  exists d' : DigitalTwin.t,
    DigitalTwin.run d frames rs = Ok (d', advance (5 * length frames) rs)
    /\ 0 <= DigitalTwin.rotation d' /\ DigitalTwin.rotation d' < 360.
Proof.
  intros Hrot Hne.
  destruct (run_preserves
              (fun x => 0 <= DigitalTwin.rotation x
                        /\ DigitalTwin.rotation x < 360)) with
    (frames := frames) (d := d) (rs := rs) as (d' & Hrun & HP & _).
  - intros x frame rs0 r rs0' Hx _ Hup.
    exact (twin_update_rotation x frame rs0 rs0' r Hx Hup).
  - exact Hne.
  - split; lra.
  - exists d'. split; [exact Hrun | exact HP].
Qed.

Lemma rotation_wraparound_witness :
  exists d' : DigitalTwin.t,
    DigitalTwin.run digital_twin (frame_seq 200)
                    (mkRandomState (fun i => inject_Z (Z.of_nat i)) 0)
    = Ok (d', advance (5 * length (frame_seq 200))
                      (mkRandomState (fun i => inject_Z (Z.of_nat i)) 0))
    /\ 0 <= DigitalTwin.rotation d' /\ DigitalTwin.rotation d' < 360.
Proof.
  apply (rotation_wraparound digital_twin (frame_seq 200)
           (mkRandomState (fun i => inject_Z (Z.of_nat i)) 0)).
  - reflexivity.
  - vm_compute. discriminate.
Defined.

(** ** The order of the history *)

Lemma run_time (frames : list Z) :
  forall (d : DigitalTwin.t) (rs : RandomState),
    ~ ManufacturingMachine.optimal_temp (DigitalTwin.machine d) == 0 ->
    exists d' : DigitalTwin.t,
      DigitalTwin.run d frames rs = Ok (d', advance (5 * length frames) rs)
      /\ DigitalTwin.time d' = DigitalTwin.time d ++ frames.
Proof.
  induction frames as [ | frame frames IH]; intros d rs Hne.
  - exists d. cbn. unfold ret, advance. destruct rs; cbn.
    rewrite app_nil_r. split; reflexivity.
  - destruct (twin_update_ok d frame rs Hne) as (r & Hup & Hm & Htime & _).
    assert (Hne' : ~ ManufacturingMachine.optimal_temp
                       (DigitalTwin.machine (snd r)) == 0)
      by (rewrite Hm; exact Hne).
    destruct (IH (snd r) (advance 5 rs) Hne') as (d' & Hrun & Ht).
    exists d'. cbn [DigitalTwin.run]. unfold bind at 1.
    rewrite Hup, Hrun, advance_advance. split.
    + do 2 f_equal. f_equal. cbn [length]. lia.
    + rewrite Ht, Htime, <- app_assoc. reflexivity.
Qed.

Lemma strictly_increasing_seq (n a : nat) :
  strictly_increasing (map Z.of_nat (seq a n)) = true.
Proof.
  revert a. induction n as [ | n IH]; intros a; [reflexivity | ].
  specialize (IH (S a)). destruct n as [ | n]; [reflexivity | ].
  cbn [seq map] in *. cbn [strictly_increasing].
  cbn [strictly_increasing] in IH. rewrite IH, Bool.andb_true_r.
  apply Z.ltb_lt. lia.
Qed.

(** C6, as stated, fails. The claim that the time indices are strictly
    increasing for every sequence of frame indices fails when the scheduler
    passes an index twice: the driver of the script, called with the frames
    0 and 0, records the time indices 0, 0. *)
Lemma history_repeated_frame :
  exists d' : DigitalTwin.t,
    value (DigitalTwin.run digital_twin [0%Z; 0%Z] zero_noise) = Ok d'
    /\ DigitalTwin.time d' = [0%Z; 0%Z]
    /\ strictly_increasing (DigitalTwin.time d') = false.
Proof.
  eexists. split; [vm_compute; reflexivity | ].
  split; reflexivity.
Qed.

(** C6, as the code has it. For every finite sequence of frame indices
    passed to a freshly built driver (machine with a non-zero
    [optimal_temp]), the time indices of the history are exactly the frame
    indices passed, in order; they are strictly increasing exactly when the
    indices passed are, as they are for the indices [0 .. n-1] of the
    animation. *)
Theorem history_ordering
    (m : ManufacturingMachine.t) (frames : list Z) (rs : RandomState) :
  ~ ManufacturingMachine.optimal_temp m == 0 ->
  exists d' : DigitalTwin.t,
    DigitalTwin.run (DigitalTwin.init m) frames rs
    = Ok (d', advance (5 * length frames) rs)
    /\ DigitalTwin.time d' = frames
    /\ strictly_increasing (DigitalTwin.time d') = strictly_increasing frames
    /\ (forall n : nat,
           frames = frame_seq n ->
           strictly_increasing (DigitalTwin.time d') = true).
Proof.
  intros Hne.
  destruct (run_time frames (DigitalTwin.init m) rs Hne) as (d' & Hrun & Ht).
  cbn in Ht. exists d'. split; [exact Hrun | ].
  split; [exact Ht | ].
  split; [rewrite Ht; reflexivity | ].
  intros n Hn. rewrite Ht, Hn. apply strictly_increasing_seq.
Qed.

Lemma history_ordering_witness :
  exists d' : DigitalTwin.t,
    DigitalTwin.run (DigitalTwin.init machine) (frame_seq 4) zero_noise
    = Ok (d', advance (5 * length (frame_seq 4)) zero_noise)
    /\ DigitalTwin.time d' = frame_seq 4
    /\ strictly_increasing (DigitalTwin.time d')
       = strictly_increasing (frame_seq 4)
    /\ (forall n : nat,
           frame_seq 4 = frame_seq n ->
           strictly_increasing (DigitalTwin.time d') = true).
Proof.
  apply (history_ordering machine (frame_seq 4) zero_noise).
  vm_compute. discriminate.
Defined.

(** ** The efficiency factor *)

(** C7. For every [optimal_temp > 0] the efficiency factor of [update] is
    computed without fault, has the value 1 at
    [temperature = optimal_temp] and the value 0 at
    [temperature = optimal_temp * 2]. *)
Theorem efficiency_symmetry (optimal_temp : Q) (rs : RandomState) :
  0 < optimal_temp ->
  exists f1 f2 : Q,
    value (ManufacturingMachine.temp_factor optimal_temp optimal_temp rs)
    = Ok f1
    /\ f1 == 1
    /\ value (ManufacturingMachine.temp_factor (optimal_temp * 2)
                optimal_temp rs) = Ok f2
    /\ f2 == 0.
Proof.
  intros Hpos.
  assert (Hne : ~ optimal_temp == 0) by lra.
  unfold ManufacturingMachine.temp_factor, py_div, bind, ret, non_finite.
  destruct (Qeq_bool optimal_temp 0) eqn:E.
  { apply Qeq_bool_iff in E. contradiction. }
  cbn [value].
  exists (1 - Qabs (optimal_temp - optimal_temp) / optimal_temp),
         (1 - Qabs (optimal_temp * 2 - optimal_temp) / optimal_temp).
  split; [reflexivity | ]. split.
  - assert (H0 : optimal_temp - optimal_temp == 0) by ring.
    rewrite H0. change (Qabs 0) with 0. field. exact Hne.
  - split; [reflexivity | ].
    assert (H1 : optimal_temp * 2 - optimal_temp == optimal_temp) by ring.
    rewrite H1, Qabs_pos by lra. field. exact Hne.
Qed.

Lemma efficiency_symmetry_witness :
  exists f1 f2 : Q,
    value (ManufacturingMachine.temp_factor 75 75 zero_noise) = Ok f1
    /\ f1 == 1
    /\ value (ManufacturingMachine.temp_factor (75 * 2) 75 zero_noise) = Ok f2
    /\ f2 == 0.
Proof.
  apply (efficiency_symmetry 75 zero_noise). reflexivity.
Defined.

(** ** Determinism under a fixed noise source *)

Lemma twin_update_value_eq (d : DigitalTwin.t) (frame : Z)
    (rs1 rs2 : RandomState) :
  (forall i : nat, (i < 5)%nat -> noise_at rs1 i = noise_at rs2 i) ->
  value (DigitalTwin.update d frame rs1)
  = value (DigitalTwin.update d frame rs2).
Proof.
  intros Hz. unfold DigitalTwin.update, bind.
  rewrite !update_unfold.
  destruct (Qeq_bool _ 0); [reflexivity | ].
  unfold updated.
  rewrite (Hz 0%nat), (Hz 1%nat), (Hz 2%nat), (Hz 3%nat), (Hz 4%nat) by lia.
  reflexivity.
Qed.

Lemma trajectory_value_eq (frames : list Z) :
  forall (d : DigitalTwin.t) (rs1 rs2 : RandomState),
    (forall i : nat,
        (i < 5 * length frames)%nat -> noise_at rs1 i = noise_at rs2 i) ->
    value (DigitalTwin.trajectory d frames rs1)
    = value (DigitalTwin.trajectory d frames rs2).
Proof.
  induction frames as [ | frame frames IH]; intros d rs1 rs2 Hz;
    [reflexivity | ].
  cbn [length] in Hz.
  assert (Hhead : forall i : nat,
             (i < 5)%nat -> noise_at rs1 i = noise_at rs2 i)
    by (intros i Hi; apply Hz; lia).
  pose proof (twin_update_value_eq d frame rs1 rs2 Hhead) as Hv.
  cbn [DigitalTwin.trajectory]. unfold bind at 1 3.
  destruct (Qeq_bool (ManufacturingMachine.optimal_temp
                        (DigitalTwin.machine d)) 0) eqn:E.
  - apply Qeq_bool_iff in E.
    rewrite !(twin_update_non_finite d frame _ E). reflexivity.
  - assert (Hne : ~ ManufacturingMachine.optimal_temp
                      (DigitalTwin.machine d) == 0)
      by (intros H; apply Qeq_bool_iff in H; congruence).
    destruct (twin_update_ok d frame rs1 Hne) as (r1 & Hup1 & _).
    destruct (twin_update_ok d frame rs2 Hne) as (r2 & Hup2 & _).
    rewrite Hup1, Hup2 in Hv. cbn in Hv. injection Hv as Hr. subst r2.
    rewrite Hup1, Hup2.
    assert (Htail : forall i : nat,
               (i < 5 * length frames)%nat ->
               noise_at (advance 5 rs1) i = noise_at (advance 5 rs2) i)
      by (intros i Hi; rewrite !noise_at_advance; apply Hz; lia).
    specialize (IH (snd r1) _ _ Htail).
    unfold bind, ret.
    destruct (DigitalTwin.trajectory (snd r1) frames (advance 5 rs1))
      as [[tl1 ?] | ];
      destruct (DigitalTwin.trajectory (snd r1) frames (advance 5 rs2))
      as [[tl2 ?] | ]; cbn in IH |- *; congruence.
Qed.

Lemma last_cons_nonempty {A : Type} (l : list A) (a d d' : A) :
  l <> [] -> last (a :: l) d = last l d'.
Proof.
  intros Hl. destruct l as [ | x l]; [congruence | clear Hl].
  change (last (x :: l) d = last (x :: l) d').
  revert x. induction l as [ | y l IH]; intros x; [reflexivity | ].
  change (last (y :: l) d = last (y :: l) d'). apply IH.
Qed.

Lemma trajectory_ok (frames : list Z) :
  forall (d : DigitalTwin.t) (rs : RandomState),
    ~ ManufacturingMachine.optimal_temp (DigitalTwin.machine d) == 0 ->
    exists tr : list DigitalTwin.t,
      DigitalTwin.trajectory d frames rs
      = Ok (tr, advance (5 * length frames) rs)
      /\ length tr = S (length frames)
      /\ hd_error tr = Some d
      /\ value (DigitalTwin.run d frames rs) = Ok (last tr d).
Proof.
  induction frames as [ | frame frames IH]; intros d rs Hne.
  - exists [d]. cbn. unfold ret, advance. destruct rs; cbn. repeat split.
  - destruct (twin_update_ok d frame rs Hne) as (r & Hup & Hm & _).
    assert (Hne' : ~ ManufacturingMachine.optimal_temp
                       (DigitalTwin.machine (snd r)) == 0)
      by (rewrite Hm; exact Hne).
    destruct (IH (snd r) (advance 5 rs) Hne') as (tr & Htr & Hlen & Hhd & Hrun).
    exists (d :: tr).
    cbn [DigitalTwin.trajectory DigitalTwin.run]. unfold bind at 1 3.
    rewrite Hup. unfold bind, ret. rewrite Htr, advance_advance.
    split; [do 2 f_equal; f_equal; cbn [length]; lia | ].
    split; [cbn [length]; rewrite Hlen; reflexivity | ].
    split; [reflexivity | ].
    rewrite Hrun. f_equal.
    symmetry. apply last_cons_nonempty. destruct tr; discriminate.
Qed.

(** C8. Two runs that start from the same driver state and whose generators
    deliver the same deviates (the five per frame that the runs consume)
    go through the same states: the trajectories, which hold the machine,
    the rotation and the histories after every frame, are equal; on a
    machine with a non-zero [optimal_temp] both runs go through and the
    trajectory has one state per frame after the initial one. *)
Theorem determinism
    (d1 d2 : DigitalTwin.t) (frames : list Z) (rs1 rs2 : RandomState) :
  d1 = d2 ->
  (forall i : nat,
      (i < 5 * length frames)%nat -> noise_at rs1 i = noise_at rs2 i) ->
  value (DigitalTwin.trajectory d1 frames rs1)
  = value (DigitalTwin.trajectory d2 frames rs2)
  /\ (~ ManufacturingMachine.optimal_temp (DigitalTwin.machine d1) == 0 ->
      exists tr : list DigitalTwin.t,
        value (DigitalTwin.trajectory d1 frames rs1) = Ok tr
        /\ length tr = S (length frames)).
Proof.
  intros Hd Hz. subst d2. split.
  - apply trajectory_value_eq. exact Hz.
  - intros Hne.
    destruct (trajectory_ok frames d1 rs1 Hne) as (tr & Htr & Hlen & _).
    exists tr. rewrite Htr. split; [reflexivity | exact Hlen].
Qed.

(** Two generators that differ in cursor and in the deviates beyond the
    fifteen that three frames consume. *)
Lemma determinism_witness :
  value (DigitalTwin.trajectory digital_twin (frame_seq 3)
           (mkRandomState (fun i => inject_Z (Z.of_nat i)) 2))
  = value (DigitalTwin.trajectory digital_twin (frame_seq 3)
             (mkRandomState
                (fun i => if (i <? 15)%nat then inject_Z (Z.of_nat (i + 2))
                          else 0) 0))
  /\ (~ ManufacturingMachine.optimal_temp
          (DigitalTwin.machine digital_twin) == 0 ->
      exists tr : list DigitalTwin.t,
        value (DigitalTwin.trajectory digital_twin (frame_seq 3)
                 (mkRandomState (fun i => inject_Z (Z.of_nat i)) 2)) = Ok tr
        /\ length tr = S (length (frame_seq 3))).
Proof.
  apply (determinism digital_twin digital_twin (frame_seq 3)
           (mkRandomState (fun i => inject_Z (Z.of_nat i)) 2)
           (mkRandomState
              (fun i => if (i <? 15)%nat then inject_Z (Z.of_nat (i + 2))
                        else 0) 0)).
  - reflexivity.
  - intros i Hi. cbn in Hi.
    do 15 (destruct i as [ | i]; [reflexivity | ]). lia.
Defined.

(** ** Faults *)





(** Where the model stops: a machine built with [optimal_temp = 0]. *)
Example update_zero_optimal_temp :
  ManufacturingMachine.update (ManufacturingMachine.init 70 100 0 10 50)
                              zero_noise
  = NonFinite.
Proof. reflexivity. Qed.

(** ** Construction *)

Lemma first_update_bounds
    (m : ManufacturingMachine.t) (rs : RandomState) :
  0 <= ManufacturingMachine.max_temp m ->
  ~ ManufacturingMachine.optimal_temp m == 0 ->
  exists m' : ManufacturingMachine.t,
    ManufacturingMachine.update m rs = Ok (m', advance 5 rs)
    /\ bounds_ok m'.
Proof.
  intros Hmax Hne. rewrite (update_ok m rs Hne).
  eexists. split; [reflexivity | ]. apply stepped_bounds. exact Hmax.
Qed.

(** C10. The constructor validates and clamps nothing: whatever the
    arguments, the machine it builds has exactly the temperature, the
    production rate and the power passed (and the two temperature
    parameters), with the pressure and the stress at 1.0; a temperature
    above [max_temp] or a power above 100 is therefore in the state until
    the first update, which clamps it. *)
Theorem construction_keeps_arguments
    (initial_temp max_temp optimal_temp initial_production_rate
       initial_power : Q) :
  let m := ManufacturingMachine.init initial_temp max_temp optimal_temp
             initial_production_rate initial_power in
  (ManufacturingMachine.temperature m = initial_temp
   /\ ManufacturingMachine.max_temp m = max_temp
   /\ ManufacturingMachine.optimal_temp m = optimal_temp
   /\ ManufacturingMachine.production_rate m = initial_production_rate
   /\ ManufacturingMachine.power_consumption m = initial_power
   /\ ManufacturingMachine.pressure m = 1.0
   /\ ManufacturingMachine.stress m = 1.0)
  /\ (max_temp < initial_temp \/ 100 < initial_power -> ~ bounds_ok m)
  /\ (forall rs : RandomState,
         0 <= max_temp -> ~ optimal_temp == 0 ->
         exists m' : ManufacturingMachine.t,
           ManufacturingMachine.update m rs = Ok (m', advance 5 rs)
           /\ bounds_ok m').
Proof.
  intros m. split; [repeat split | split].
  - intros Hout [[_ Ht] [[_ Hp] _]]. cbn in Ht, Hp.
    destruct Hout as [Hout | Hout]; lra.
  - intros rs Hmax Hne. apply first_update_bounds; assumption.
Qed.

Lemma construction_keeps_arguments_witness :
  ~ bounds_ok (ManufacturingMachine.init 200 100 75 10 150)
  /\ exists m' : ManufacturingMachine.t,
       ManufacturingMachine.update
         (ManufacturingMachine.init 200 100 75 10 150) zero_noise
       = Ok (m', advance 5 zero_noise)
       /\ bounds_ok m'.
Proof.
  destruct (construction_keeps_arguments 200 100 75 10 150)
    as (_ & Hout & Hup).
  split.
  - apply Hout. left. reflexivity.
  - apply (Hup zero_noise); vm_compute; discriminate.
Defined.

(** * Further properties of the model *)

(** ** What a successful frame did *)

Lemma twin_update_inv (d : DigitalTwin.t) (frame : Z) (rs rs' : RandomState)
    (r : DigitalTwin.artists * DigitalTwin.t) :
  ~ ManufacturingMachine.optimal_temp (DigitalTwin.machine d) == 0 ->
  DigitalTwin.update d frame rs = Ok (r, rs') ->
  let m' := updated (DigitalTwin.machine d) rs in
  rs' = advance 5 rs
  /\ DigitalTwin.machine (snd r) = m'
  /\ DigitalTwin.time (snd r) = DigitalTwin.time d ++ [frame]
  /\ DigitalTwin.temp_history (snd r)
     = DigitalTwin.temp_history d ++ [ManufacturingMachine.temperature m']
  /\ DigitalTwin.prod_history (snd r)
     = DigitalTwin.prod_history d ++ [ManufacturingMachine.production_rate m']
  /\ DigitalTwin.power_history (snd r)
     = DigitalTwin.power_history d
       ++ [ManufacturingMachine.power_consumption m']
  /\ DigitalTwin.pressure_history (snd r)
     = DigitalTwin.pressure_history d ++ [ManufacturingMachine.pressure m']
  /\ DigitalTwin.stress_history (snd r)
     = DigitalTwin.stress_history d ++ [ManufacturingMachine.stress m']
  /\ DigitalTwin.rotation (snd r)
     = py_mod (DigitalTwin.rotation d
               + ManufacturingMachine.production_rate m' * 5) 360
  /\ map xdata [DigitalTwin.temp_line (snd r); DigitalTwin.prod_line (snd r);
                DigitalTwin.power_line (snd r);
                DigitalTwin.pressure_line (snd r);
                DigitalTwin.stress_line (snd r)]
     = repeat (DigitalTwin.time (snd r)) 5
  /\ map ydata [DigitalTwin.temp_line (snd r); DigitalTwin.prod_line (snd r);
                DigitalTwin.power_line (snd r);
                DigitalTwin.pressure_line (snd r);
                DigitalTwin.stress_line (snd r)]
     = [DigitalTwin.temp_history (snd r); DigitalTwin.prod_history (snd r);
        DigitalTwin.power_history (snd r);
        DigitalTwin.pressure_history (snd r);
        DigitalTwin.stress_history (snd r)].
Proof.
  intros Hne Hup m'.
  destruct (twin_update_ok d frame rs Hne)
    as (r0 & Hup0 & Hm & Htime & Htemp & Hprod & Hpow & Hpres & Hstr & Hrot
        & _ & Hl1 & Hl2 & Hl3 & Hl4 & Hl5).
  rewrite Hup0 in Hup. injection Hup as Hr Hrs. subst r0 rs'.
  split; [reflexivity | ].
  repeat (split; [assumption | ]).
  cbn [map repeat]. rewrite Hl1, Hl2, Hl3, Hl4, Hl5. split; reflexivity.
Qed.

(** The machine of the driver after a run is the machine after as many
    updates. *)
Lemma run_machine (frames : list Z) :
  forall (d : DigitalTwin.t) (rs : RandomState),
    ~ ManufacturingMachine.optimal_temp (DigitalTwin.machine d) == 0 ->
    exists d' : DigitalTwin.t,
      DigitalTwin.run d frames rs = Ok (d', advance (5 * length frames) rs)
      /\ DigitalTwin.machine d'
         = updated_n (DigitalTwin.machine d) rs (length frames).
Proof.
  induction frames as [ | frame frames IH]; intros d rs Hne.
  - exists d. cbn. unfold ret, advance. destruct rs; cbn. split; reflexivity.
  - destruct (twin_update_ok d frame rs Hne) as (r & Hup & Hm & _).
    assert (Hne' : ~ ManufacturingMachine.optimal_temp
                       (DigitalTwin.machine (snd r)) == 0)
      by (rewrite Hm; exact Hne).
    destruct (IH (snd r) (advance 5 rs) Hne') as (d' & Hrun & Hmach).
    exists d'. cbn [DigitalTwin.run]. unfold bind at 1.
    rewrite Hup, Hrun, advance_advance. split.
    + do 2 f_equal. f_equal. cbn [length]. lia.
    + rewrite Hmach, Hm. reflexivity.
Qed.

(** ** Invariants of the histories *)

(** X1. Whatever values the constructor was given (in or out of the
    bounds), every temperature, power and production rate a fresh driver
    records lies in its bounds, provided [max_temp >= 0] and
    [optimal_temp] is not zero: the histories hold updated values only. *)
Theorem recorded_values_in_bounds
    (m : ManufacturingMachine.t) (frames : list Z) (rs : RandomState) :
  0 <= ManufacturingMachine.max_temp m ->
  ~ ManufacturingMachine.optimal_temp m == 0 ->
  exists d' : DigitalTwin.t,
    DigitalTwin.run (DigitalTwin.init m) frames rs
    = Ok (d', advance (5 * length frames) rs)
    /\ Forall (fun t => 0 <= t /\ t <= ManufacturingMachine.max_temp m)
              (DigitalTwin.temp_history d')
    /\ Forall (fun p => 0 <= p /\ p <= 100) (DigitalTwin.power_history d')
    /\ Forall (fun p => 0 <= p) (DigitalTwin.prod_history d').
Proof.
  intros Hmax Hne.
  destruct (run_preserves
    (fun x =>
       ManufacturingMachine.max_temp (DigitalTwin.machine x)
       = ManufacturingMachine.max_temp m
       /\ Forall (fun t => 0 <= t /\ t <= ManufacturingMachine.max_temp m)
                 (DigitalTwin.temp_history x)
       /\ Forall (fun p => 0 <= p /\ p <= 100) (DigitalTwin.power_history x)
       /\ Forall (fun p => 0 <= p) (DigitalTwin.prod_history x)))
    with (frames := frames) (d := DigitalTwin.init m) (rs := rs)
    as (d' & Hrun & (_ & Ht & Hp & Hr) & _).
  - intros x frame rs0 r rs0' Hx (Hmx & Ht & Hp & Hr) Hup.
    assert (Hmax' : 0 <= ManufacturingMachine.max_temp (DigitalTwin.machine x))
      by (rewrite Hmx; exact Hmax).
    destruct (twin_update_bounds x frame rs0 rs0' r Hmax' Hx Hup)
      as [[[Hb1 Hb2] [[Hb3 Hb4] Hb5]] Heq].
    destruct (twin_update_inv x frame rs0 rs0' r Hx Hup)
      as (_ & Hm & _ & Htemp & Hprod & Hpow & _).
    rewrite <- Hm in Htemp, Hprod, Hpow.
    rewrite Htemp, Hprod, Hpow.
    split; [congruence | ].
    rewrite Heq, Hmx in Hb2.
    repeat split; apply Forall_app; split; try assumption;
      repeat constructor; assumption.
  - exact Hne.
  - cbn. repeat split; constructor.
  - exists d'. repeat split; assumption.
Qed.

(** A machine built far out of its bounds. *)
Lemma recorded_values_in_bounds_witness :
  exists d' : DigitalTwin.t,
    DigitalTwin.run
      (DigitalTwin.init (ManufacturingMachine.init 500 100 75 (-3) 900))
      (frame_seq 6) (mkRandomState (fun i => inject_Z (Z.of_nat i) - 7) 0)
    = Ok (d', advance (5 * length (frame_seq 6))
                      (mkRandomState (fun i => inject_Z (Z.of_nat i) - 7) 0))
    /\ Forall (fun t => 0 <= t
                        /\ t <= ManufacturingMachine.max_temp
                                  (ManufacturingMachine.init 500 100 75 (-3)
                                     900))
              (DigitalTwin.temp_history d')
    /\ Forall (fun p => 0 <= p /\ p <= 100) (DigitalTwin.power_history d')
    /\ Forall (fun p => 0 <= p) (DigitalTwin.prod_history d').
Proof.
  apply (recorded_values_in_bounds
           (ManufacturingMachine.init 500 100 75 (-3) 900) (frame_seq 6)
           (mkRandomState (fun i => inject_Z (Z.of_nat i) - 7) 0));
    vm_compute; discriminate.
Defined.

Lemma twin_update_aligned (d : DigitalTwin.t) (frame : Z)
    (rs rs' : RandomState) (r : DigitalTwin.artists * DigitalTwin.t) :
  ~ ManufacturingMachine.optimal_temp (DigitalTwin.machine d) == 0 ->
  length (DigitalTwin.temp_history d) = length (DigitalTwin.time d)
  /\ length (DigitalTwin.prod_history d) = length (DigitalTwin.time d)
  /\ length (DigitalTwin.power_history d) = length (DigitalTwin.time d)
  /\ length (DigitalTwin.pressure_history d) = length (DigitalTwin.time d)
  /\ length (DigitalTwin.stress_history d) = length (DigitalTwin.time d) ->
  DigitalTwin.update d frame rs = Ok (r, rs') ->
  aligned (snd r).
Proof.
  intros Hne (H1 & H2 & H3 & H4 & H5) Hup.
  destruct (twin_update_inv d frame rs rs' r Hne Hup)
    as (_ & _ & Htime & Htemp & Hprod & Hpow & Hpres & Hstr & _ & Hx & Hy).
  cbn [map repeat] in Hx, Hy.
  injection Hx as Hx1 Hx2 Hx3 Hx4 Hx5.
  injection Hy as Hy1 Hy2 Hy3 Hy4 Hy5.
  assert (L1 : length (DigitalTwin.temp_history (snd r))
               = length (DigitalTwin.time (snd r)))
    by (rewrite Htemp, Htime, !length_app, H1; reflexivity).
  assert (L2 : length (DigitalTwin.prod_history (snd r))
               = length (DigitalTwin.time (snd r)))
    by (rewrite Hprod, Htime, !length_app, H2; reflexivity).
  assert (L3 : length (DigitalTwin.power_history (snd r))
               = length (DigitalTwin.time (snd r)))
    by (rewrite Hpow, Htime, !length_app, H3; reflexivity).
  assert (L4 : length (DigitalTwin.pressure_history (snd r))
               = length (DigitalTwin.time (snd r)))
    by (rewrite Hpres, Htime, !length_app, H4; reflexivity).
  assert (L5 : length (DigitalTwin.stress_history (snd r))
               = length (DigitalTwin.time (snd r)))
    by (rewrite Hstr, Htime, !length_app, H5; reflexivity).
  unfold aligned. repeat (split; [assumption | ]).
  repeat constructor; congruence.
Qed.

(** X2. The six parallel histories stay aligned: from a driver state whose
    five value histories are as long as its time axis, every run leaves
    them so, each longer by the number of frames, and leaves every line
    artist with as many abscissas as ordinates (even if the artists were
    not so before). *)
Theorem histories_stay_aligned
    (d : DigitalTwin.t) (frames : list Z) (rs : RandomState) :
  length (DigitalTwin.temp_history d) = length (DigitalTwin.time d)
  /\ length (DigitalTwin.prod_history d) = length (DigitalTwin.time d)
  /\ length (DigitalTwin.power_history d) = length (DigitalTwin.time d)
  /\ length (DigitalTwin.pressure_history d) = length (DigitalTwin.time d)
  /\ length (DigitalTwin.stress_history d) = length (DigitalTwin.time d) ->
  ~ ManufacturingMachine.optimal_temp (DigitalTwin.machine d) == 0 ->
  frames <> [] ->
  exists d' : DigitalTwin.t,
    DigitalTwin.run d frames rs = Ok (d', advance (5 * length frames) rs)
    /\ aligned d'
    /\ length (DigitalTwin.time d')
       = (length (DigitalTwin.time d) + length frames)%nat.
Proof.
  intros Hal Hne Hnil.
  destruct frames as [ | frame frames]; [congruence | clear Hnil].
  destruct (twin_update_ok d frame rs Hne) as (r & Hup & Hm & Htime & _).
  pose proof (twin_update_aligned d frame rs _ r Hne Hal Hup) as Hal1.
  assert (Hne1 : ~ ManufacturingMachine.optimal_temp
                     (DigitalTwin.machine (snd r)) == 0)
    by (rewrite Hm; exact Hne).
  destruct (run_preserves aligned) with
    (frames := frames) (d := snd r) (rs := advance 5 rs)
    as (d' & Hrun & Hal' & _).
  - intros x f rs0 r0 rs0' Hx Hax Hup0.
    apply (twin_update_aligned x f rs0 rs0' r0 Hx); [ | exact Hup0].
    unfold aligned in Hax. tauto.
  - exact Hne1.
  - exact Hal1.
  - destruct (run_time frames (snd r) (advance 5 rs) Hne1)
      as (d'' & Hrun' & Ht).
    rewrite Hrun in Hrun'. injection Hrun' as Hd. subst d''.
    exists d'. cbn [DigitalTwin.run]. unfold bind at 1.
    rewrite Hup, Hrun, advance_advance. split.
    + do 2 f_equal. f_equal. cbn [length]. lia.
    + split; [exact Hal' | ].
      rewrite Ht, Htime, !length_app. cbn [length]. lia.
Qed.

Lemma histories_stay_aligned_witness :
  exists d' : DigitalTwin.t,
    DigitalTwin.run digital_twin (frame_seq 5) zero_noise
    = Ok (d', advance (5 * length (frame_seq 5)) zero_noise)
    /\ aligned d'
    /\ length (DigitalTwin.time d')
       = (length (DigitalTwin.time digital_twin)
          + length (frame_seq 5))%nat.
Proof.
  apply (histories_stay_aligned digital_twin (frame_seq 5) zero_noise).
  - repeat split.
  - vm_compute. discriminate.
  - discriminate.
Defined.

Lemma trajectory_history (frames : list Z) :
  forall (d : DigitalTwin.t) (rs : RandomState),
    ~ ManufacturingMachine.optimal_temp (DigitalTwin.machine d) == 0 ->
    exists (tr : list DigitalTwin.t) (d' : DigitalTwin.t),
      DigitalTwin.trajectory d frames rs
      = Ok (tr, advance (5 * length frames) rs)
      /\ DigitalTwin.run d frames rs = Ok (d', advance (5 * length frames) rs)
      /\ hd_error tr = Some d
      /\ DigitalTwin.time d' = DigitalTwin.time d ++ frames
      /\ DigitalTwin.temp_history d'
         = DigitalTwin.temp_history d
           ++ recorded ManufacturingMachine.temperature tr
      /\ DigitalTwin.prod_history d'
         = DigitalTwin.prod_history d
           ++ recorded ManufacturingMachine.production_rate tr
      /\ DigitalTwin.power_history d'
         = DigitalTwin.power_history d
           ++ recorded ManufacturingMachine.power_consumption tr
      /\ DigitalTwin.pressure_history d'
         = DigitalTwin.pressure_history d
           ++ recorded ManufacturingMachine.pressure tr
      /\ DigitalTwin.stress_history d'
         = DigitalTwin.stress_history d
           ++ recorded ManufacturingMachine.stress tr.
Proof.
  induction frames as [ | frame frames IH]; intros d rs Hne.
  - exists [d], d. cbn. unfold ret, advance. destruct rs; cbn.
    rewrite !app_nil_r. repeat split.
  - destruct (twin_update_ok d frame rs Hne) as (r & Hup & _).
    destruct (twin_update_inv d frame rs _ r Hne Hup)
      as (_ & Hm & Htime & Htemp & Hprod & Hpow & Hpres & Hstr & _).
    assert (Hne' : ~ ManufacturingMachine.optimal_temp
                       (DigitalTwin.machine (snd r)) == 0)
      by (rewrite Hm; exact Hne).
    destruct (IH (snd r) (advance 5 rs) Hne')
      as (tr & d' & Htr & Hrun & Hhd & Ht & H1 & H2 & H3 & H4 & H5).
    destruct tr as [ | x tr]; [discriminate | ].
    cbn in Hhd. injection Hhd as Hx. subst x.
    exists (d :: snd r :: tr), d'.
    cbn [DigitalTwin.trajectory DigitalTwin.run]. unfold bind at 1 3.
    rewrite Hup. unfold bind, ret. rewrite Htr, Hrun, advance_advance.
    assert (Hadv : advance (5 * length frames + 5) rs
                   = advance (5 * length (frame :: frames)) rs)
      by (f_equal; cbn [length]; lia).
    rewrite Hadv.
    split; [reflexivity | ]. split; [reflexivity | ].
    split; [reflexivity | ].
    unfold recorded in *. cbn [tl map] in *.
    rewrite Ht, H1, H2, H3, H4, H5.
    rewrite Htime, Htemp, Hprod, Hpow, Hpres, Hstr, <- Hm, <- !app_assoc.
    repeat split.
Qed.

(** X3. The histories are the record of the trajectory: after a run the
    time axis is the old one followed by the frame indices, and each of the
    five value histories is the old one followed by the values of its
    quantity in the states the driver went through, frame by frame. *)
Theorem histories_record_trajectory
    (d : DigitalTwin.t) (frames : list Z) (rs : RandomState) :
  ~ ManufacturingMachine.optimal_temp (DigitalTwin.machine d) == 0 ->
  exists (tr : list DigitalTwin.t) (d' : DigitalTwin.t),
    value (DigitalTwin.trajectory d frames rs) = Ok tr
    /\ value (DigitalTwin.run d frames rs) = Ok d'
    /\ length tr = S (length frames)
    /\ DigitalTwin.time d' = DigitalTwin.time d ++ frames
    /\ DigitalTwin.temp_history d'
       = DigitalTwin.temp_history d
         ++ recorded ManufacturingMachine.temperature tr
    /\ DigitalTwin.prod_history d'
       = DigitalTwin.prod_history d
         ++ recorded ManufacturingMachine.production_rate tr
    /\ DigitalTwin.power_history d'
       = DigitalTwin.power_history d
         ++ recorded ManufacturingMachine.power_consumption tr
    /\ DigitalTwin.pressure_history d'
       = DigitalTwin.pressure_history d
         ++ recorded ManufacturingMachine.pressure tr
    /\ DigitalTwin.stress_history d'
       = DigitalTwin.stress_history d
         ++ recorded ManufacturingMachine.stress tr.
Proof.
  intros Hne.
  destruct (trajectory_history frames d rs Hne)
    as (tr & d' & Htr & Hrun & _ & Hrest).
  destruct (trajectory_ok frames d rs Hne) as (tr0 & Htr0 & Hlen & _).
  rewrite Htr in Htr0. injection Htr0 as Heq. subst tr0.
  exists tr, d'. rewrite Htr, Hrun.
  split; [reflexivity | ]. split; [reflexivity | ].
  split; [exact Hlen | exact Hrest].
Qed.

Lemma histories_record_trajectory_witness :
  exists (tr : list DigitalTwin.t) (d' : DigitalTwin.t),
    value (DigitalTwin.trajectory digital_twin (frame_seq 3) zero_noise)
    = Ok tr
    /\ value (DigitalTwin.run digital_twin (frame_seq 3) zero_noise) = Ok d'
    /\ length tr = S (length (frame_seq 3))
    /\ DigitalTwin.time d' = DigitalTwin.time digital_twin ++ frame_seq 3
    /\ DigitalTwin.temp_history d'
       = DigitalTwin.temp_history digital_twin
         ++ recorded ManufacturingMachine.temperature tr
    /\ DigitalTwin.prod_history d'
       = DigitalTwin.prod_history digital_twin
         ++ recorded ManufacturingMachine.production_rate tr
    /\ DigitalTwin.power_history d'
       = DigitalTwin.power_history digital_twin
         ++ recorded ManufacturingMachine.power_consumption tr
    /\ DigitalTwin.pressure_history d'
       = DigitalTwin.pressure_history digital_twin
         ++ recorded ManufacturingMachine.pressure tr
    /\ DigitalTwin.stress_history d'
       = DigitalTwin.stress_history digital_twin
         ++ recorded ManufacturingMachine.stress tr.
Proof.
  apply (histories_record_trajectory digital_twin (frame_seq 3) zero_noise).
  vm_compute. discriminate.
Defined.

(** ** The frame index is a label *)

Lemma twin_update_same_physics (d1 d2 : DigitalTwin.t) (f1 f2 : Z)
    (rs : RandomState) (r1 r2 : DigitalTwin.artists * DigitalTwin.t) :
  same_physics d1 d2 ->
  ~ ManufacturingMachine.optimal_temp (DigitalTwin.machine d1) == 0 ->
  DigitalTwin.update d1 f1 rs = Ok (r1, advance 5 rs) ->
  DigitalTwin.update d2 f2 rs = Ok (r2, advance 5 rs) ->
  same_physics (snd r1) (snd r2).
Proof.
  intros (Hm & Hrot & H1 & H2 & H3 & H4 & H5 & _) Hne1 Hup1 Hup2.
  assert (Hne2 : ~ ManufacturingMachine.optimal_temp
                     (DigitalTwin.machine d2) == 0)
    by (rewrite <- Hm; exact Hne1).
  destruct (twin_update_inv d1 f1 rs _ r1 Hne1 Hup1)
    as (_ & Am & _ & A1 & A2 & A3 & A4 & A5 & Arot & _ & Ay).
  destruct (twin_update_inv d2 f2 rs _ r2 Hne2 Hup2)
    as (_ & Bm & _ & B1 & B2 & B3 & B4 & B5 & Brot & _ & By).
  rewrite <- Hm, <- H1 in B1. rewrite <- Hm, <- H2 in B2.
  rewrite <- Hm, <- H3 in B3. rewrite <- Hm, <- H4 in B4.
  rewrite <- Hm, <- H5 in B5. rewrite <- Hm, <- Hrot in Brot.
  rewrite <- Hm in Bm.
  unfold same_physics. rewrite Ay, By.
  repeat split; congruence.
Qed.

(** X4. The frame index is only the label of the time axis: two runs of
    the same length from driver states with the same machine, rotation and
    value histories, reading the same generator, end with the same machine,
    rotation, value histories and line ordinates, whatever frame indices
    each run is given. *)
Theorem frame_index_is_label_only (frames1 : list Z) :
  forall (frames2 : list Z) (d1 d2 : DigitalTwin.t) (rs : RandomState),
    same_physics d1 d2 ->
    length frames1 = length frames2 ->
    ~ ManufacturingMachine.optimal_temp (DigitalTwin.machine d1) == 0 ->
    exists d1' d2' : DigitalTwin.t,
      DigitalTwin.run d1 frames1 rs
      = Ok (d1', advance (5 * length frames1) rs)
      /\ DigitalTwin.run d2 frames2 rs
         = Ok (d2', advance (5 * length frames1) rs)
      /\ same_physics d1' d2'
      /\ DigitalTwin.time d1' = DigitalTwin.time d1 ++ frames1
      /\ DigitalTwin.time d2' = DigitalTwin.time d2 ++ frames2.
Proof.
  induction frames1 as [ | f1 frames1 IH];
    intros [ | f2 frames2] d1 d2 rs Hsame Hlen Hne1; try discriminate.
  - exists d1, d2. cbn. unfold ret, advance. destruct rs; cbn.
    rewrite !app_nil_r.
    split; [reflexivity | ]. split; [reflexivity | ].
    split; [exact Hsame | split; reflexivity].
  - assert (Hne2 : ~ ManufacturingMachine.optimal_temp
                       (DigitalTwin.machine d2) == 0)
      by (destruct Hsame as [Hm _]; rewrite <- Hm; exact Hne1).
    destruct (twin_update_ok d1 f1 rs Hne1) as (r1 & Hup1 & Hm1 & Ht1 & _).
    destruct (twin_update_ok d2 f2 rs Hne2) as (r2 & Hup2 & Hm2 & Ht2 & _).
    pose proof (twin_update_same_physics d1 d2 f1 f2 rs r1 r2
                  Hsame Hne1 Hup1 Hup2) as Hsame'.
    assert (Hne1' : ~ ManufacturingMachine.optimal_temp
                        (DigitalTwin.machine (snd r1)) == 0)
      by (rewrite Hm1; exact Hne1).
    injection Hlen as Hlen.
    destruct (IH frames2 (snd r1) (snd r2) (advance 5 rs) Hsame' Hlen Hne1')
      as (d1' & d2' & Hrun1 & Hrun2 & Hs & Hta & Htb).
    exists d1', d2'. cbn [DigitalTwin.run]. unfold bind at 1 2.
    rewrite Hup1, Hup2, Hrun1, Hrun2, advance_advance.
    assert (Hadv : advance (5 * length frames1 + 5) rs
                   = advance (5 * length (f1 :: frames1)) rs)
      by (f_equal; cbn [length]; lia).
    rewrite Hadv.
    split; [reflexivity | ]. split; [reflexivity | ].
    split; [exact Hs | ]. split.
    + rewrite Hta, Ht1, <- app_assoc. reflexivity.
    + rewrite Htb, Ht2, <- app_assoc. reflexivity.
Qed.

Lemma frame_index_is_label_only_witness :
  exists d1' d2' : DigitalTwin.t,
    DigitalTwin.run digital_twin [0; 1; 2]%Z zero_noise
    = Ok (d1', advance (5 * length [0; 1; 2]%Z) zero_noise)
    /\ DigitalTwin.run digital_twin [9; 9; -4]%Z zero_noise
       = Ok (d2', advance (5 * length [0; 1; 2]%Z) zero_noise)
    /\ same_physics d1' d2'
    /\ DigitalTwin.time d1' = DigitalTwin.time digital_twin ++ [0; 1; 2]%Z
    /\ DigitalTwin.time d2' = DigitalTwin.time digital_twin ++ [9; 9; -4]%Z.
Proof.
  apply (frame_index_is_label_only [0; 1; 2]%Z [9; 9; -4]%Z
           digital_twin digital_twin zero_noise).
  - repeat split.
  - reflexivity.
  - vm_compute. discriminate.
Defined.

(** ** The random walks of pressure and stress *)

Lemma updated_n_walk (n : nat) :
  forall (m : ManufacturingMachine.t) (rs : RandomState),
    ManufacturingMachine.pressure (updated_n m rs n)
    == ManufacturingMachine.pressure m + 0.1 * noise_sum rs 3 n
    /\ ManufacturingMachine.stress (updated_n m rs n)
       == ManufacturingMachine.stress m + 0.05 * noise_sum rs 4 n.
Proof.
  induction n as [ | n IH]; intros m rs.
  - cbn. split; ring.
  - cbn [updated_n noise_sum].
    destruct (IH (updated m rs) (advance 5 rs)) as [Hp Hs].
    rewrite Hp, Hs. unfold updated, stepped; cbn.
    split; ring.
Qed.

(** X5. Pressure and stress are plain random walks: after a run of [n]
    frames the pressure is the initial one plus 0.1 times the sum of the
    fourth deviate of every frame, and the stress the initial one plus 0.05
    times the sum of the fifth; no clamp and no other quantity enters. *)
Theorem random_walk_closed_form
    (d : DigitalTwin.t) (frames : list Z) (rs : RandomState) :
  ~ ManufacturingMachine.optimal_temp (DigitalTwin.machine d) == 0 ->
  exists d' : DigitalTwin.t,
    DigitalTwin.run d frames rs = Ok (d', advance (5 * length frames) rs)
    /\ ManufacturingMachine.pressure (DigitalTwin.machine d')
       == ManufacturingMachine.pressure (DigitalTwin.machine d)
          + 0.1 * noise_sum rs 3 (length frames)
    /\ ManufacturingMachine.stress (DigitalTwin.machine d')
       == ManufacturingMachine.stress (DigitalTwin.machine d)
          + 0.05 * noise_sum rs 4 (length frames).
Proof.
  intros Hne.
  destruct (run_machine frames d rs Hne) as (d' & Hrun & Hm).
  exists d'. split; [exact Hrun | ].
  rewrite Hm. apply updated_n_walk.
Qed.

Lemma random_walk_closed_form_witness :
  exists d' : DigitalTwin.t,
    DigitalTwin.run digital_twin (frame_seq 4)
                    (mkRandomState (fun i => inject_Z (Z.of_nat i)) 0)
    = Ok (d', advance (5 * length (frame_seq 4))
                      (mkRandomState (fun i => inject_Z (Z.of_nat i)) 0))
    /\ ManufacturingMachine.pressure (DigitalTwin.machine d')
       == ManufacturingMachine.pressure (DigitalTwin.machine digital_twin)
          + 0.1 * noise_sum (mkRandomState (fun i => inject_Z (Z.of_nat i)) 0)
                            3 (length (frame_seq 4))
    /\ ManufacturingMachine.stress (DigitalTwin.machine d')
       == ManufacturingMachine.stress (DigitalTwin.machine digital_twin)
          + 0.05 * noise_sum (mkRandomState (fun i => inject_Z (Z.of_nat i)) 0)
                             4 (length (frame_seq 4)).
Proof.
  apply (random_walk_closed_form digital_twin (frame_seq 4)
           (mkRandomState (fun i => inject_Z (Z.of_nat i)) 0)).
  vm_compute. discriminate.
Defined.

(** X6. Pressure and stress are not clamped: from every machine with a
    non-zero [optimal_temp] and for every pair of target values there are
    deviates with which a single update leaves exactly that pressure and
    that stress. *)
Theorem pressure_stress_unclamped
    (m : ManufacturingMachine.t) (p s : Q) :
  ~ ManufacturingMachine.optimal_temp m == 0 ->
  exists (rs : RandomState) (m' : ManufacturingMachine.t),
    ManufacturingMachine.update m rs = Ok (m', advance 5 rs)
    /\ ManufacturingMachine.pressure m' == p
    /\ ManufacturingMachine.stress m' == s.
Proof.
  intros Hne.
  exists (mkRandomState
            (fun i =>
               if (i =? 3)%nat
               then (p - ManufacturingMachine.pressure m) / 0.1
               else if (i =? 4)%nat
                    then (s - ManufacturingMachine.stress m) / 0.05
                    else 0) 0).
  eexists. split; [apply update_ok; exact Hne | ].
  unfold updated, stepped, noise_at; cbn.
  split; field.
Qed.

Lemma pressure_stress_unclamped_witness :
  exists (rs : RandomState) (m' : ManufacturingMachine.t),
    ManufacturingMachine.update machine rs = Ok (m', advance 5 rs)
    /\ ManufacturingMachine.pressure m' == 1000000
    /\ ManufacturingMachine.stress m' == - (1000000).
Proof.
  apply (pressure_stress_unclamped machine 1000000 (- (1000000))).
  vm_compute. discriminate.
Defined.

(** ** Clamping at the edges *)

Lemma clip_cases (a a_min a_max : Q) :
  a_min <= a_max ->
  (a < a_min -> np.clip a a_min a_max == a_min)
  /\ (a_min <= a -> a <= a_max -> np.clip a a_min a_max == a)
  /\ (a_max < a -> np.clip a a_min a_max == a_max).
Proof.
  intros Hle. unfold np.clip. split; [ | split].
  - intros Hlt. rewrite Q.max_r by lra. apply Q.min_l. exact Hle.
  - intros Hlo Hhi. rewrite Q.max_l by lra. apply Q.min_l. exact Hhi.
  - intros Hgt. rewrite Q.max_l by lra. apply Q.min_r. lra.
Qed.

Lemma clip_inverted (a a_min a_max : Q) :
  a_max < a_min -> np.clip a a_min a_max == a_max.
Proof.
  intros Hlt. unfold np.clip. apply Q.min_r.
  apply Qle_trans with a_min; [lra | apply Q.le_max_r].
Qed.

(** X7. The clamps saturate: with [max_temp >= 0], the temperature after
    an update is the old one plus twice the first deviate when that sum
    lies in [0, max_temp], 0 when it is below and [max_temp] when it is
    above; likewise the power with 0.2 times the third deviate and the
    interval [0, 100]. *)
Theorem clamps_saturate (m : ManufacturingMachine.t) (rs : RandomState) :
  0 <= ManufacturingMachine.max_temp m ->
  ~ ManufacturingMachine.optimal_temp m == 0 ->
  exists m' : ManufacturingMachine.t,
    ManufacturingMachine.update m rs = Ok (m', advance 5 rs)
    /\ (let x := ManufacturingMachine.temperature m + 2 * noise_at rs 0 in
        (x < 0 -> ManufacturingMachine.temperature m' == 0)
        /\ (0 <= x -> x <= ManufacturingMachine.max_temp m ->
            ManufacturingMachine.temperature m' == x)
        /\ (ManufacturingMachine.max_temp m < x ->
            ManufacturingMachine.temperature m'
            == ManufacturingMachine.max_temp m))
    /\ (let y := ManufacturingMachine.power_consumption m
                 + 0.2 * noise_at rs 2 in
        (y < 0 -> ManufacturingMachine.power_consumption m' == 0)
        /\ (0 <= y -> y <= 100 ->
            ManufacturingMachine.power_consumption m' == y)
        /\ (100 < y -> ManufacturingMachine.power_consumption m' == 100)).
Proof.
  intros Hmax Hne. rewrite (update_ok m rs Hne). eexists.
  split; [reflexivity | ].
  unfold updated, stepped; cbn -[Qplus Qmult].
  split.
  - destruct (clip_cases
                (ManufacturingMachine.temperature m + (0 + 2 * noise_at rs 0))
                0 (ManufacturingMachine.max_temp m) Hmax) as (A & B & C).
    split; [ | split].
    + intros H. apply A. lra.
    + intros H1 H2. rewrite B by lra. ring.
    + intros H. apply C. lra.
  - assert (H100 : 0 <= 100) by discriminate.
    destruct (clip_cases
                (ManufacturingMachine.power_consumption m
                 + (0 + 0.2 * noise_at rs 2)) 0 100 H100) as (A & B & C).
    split; [ | split].
    + intros H. apply A. lra.
    + intros H1 H2. rewrite B by lra. ring.
    + intros H. apply C. lra.
Qed.

Lemma clamps_saturate_witness :
  exists m' : ManufacturingMachine.t,
    ManufacturingMachine.update machine
      (mkRandomState (fun _ => 40) 0)
    = Ok (m', advance 5 (mkRandomState (fun _ => 40) 0))
    /\ (let x := ManufacturingMachine.temperature machine
                 + 2 * noise_at (mkRandomState (fun _ => 40) 0) 0 in
        (x < 0 -> ManufacturingMachine.temperature m' == 0)
        /\ (0 <= x -> x <= ManufacturingMachine.max_temp machine ->
            ManufacturingMachine.temperature m' == x)
        /\ (ManufacturingMachine.max_temp machine < x ->
            ManufacturingMachine.temperature m'
            == ManufacturingMachine.max_temp machine))
    /\ (let y := ManufacturingMachine.power_consumption machine
                 + 0.2 * noise_at (mkRandomState (fun _ => 40) 0) 2 in
        (y < 0 -> ManufacturingMachine.power_consumption m' == 0)
        /\ (0 <= y -> y <= 100 ->
            ManufacturingMachine.power_consumption m' == y)
        /\ (100 < y -> ManufacturingMachine.power_consumption m' == 100)).
Proof.
  apply (clamps_saturate machine (mkRandomState (fun _ => 40) 0));
    vm_compute; discriminate.
Defined.

(** X8. A negative [max_temp] inverts the clamp of the temperature:
    [np.clip(x, 0, max_temp)] then returns [max_temp] for every [x], so
    every update leaves the temperature at [max_temp], below zero, and the
    bounds of the data model fail. *)
Theorem negative_max_temp_pins_temperature
    (m : ManufacturingMachine.t) (rs : RandomState) :
  ManufacturingMachine.max_temp m < 0 ->
  ~ ManufacturingMachine.optimal_temp m == 0 ->
  exists m' : ManufacturingMachine.t,
    ManufacturingMachine.update m rs = Ok (m', advance 5 rs)
    /\ ManufacturingMachine.temperature m' == ManufacturingMachine.max_temp m
    /\ ~ bounds_ok m'.
Proof.
  intros Hneg Hne. rewrite (update_ok m rs Hne). eexists.
  split; [reflexivity | ].
  assert (Ht : ManufacturingMachine.temperature (updated m rs)
               == ManufacturingMachine.max_temp m)
    by (unfold updated, stepped; cbn -[Qplus Qmult];
        apply clip_inverted; exact Hneg).
  split; [exact Ht | ].
  intros [[H0 _] _]. rewrite Ht in H0. lra.
Qed.

Lemma negative_max_temp_pins_temperature_witness :
  exists m' : ManufacturingMachine.t,
    ManufacturingMachine.update (ManufacturingMachine.init 70 (-20) 75 10 50)
                                zero_noise
    = Ok (m', advance 5 zero_noise)
    /\ ManufacturingMachine.temperature m'
       == ManufacturingMachine.max_temp
            (ManufacturingMachine.init 70 (-20) 75 10 50)
    /\ ~ bounds_ok m'.
Proof.
  apply (negative_max_temp_pins_temperature
           (ManufacturingMachine.init 70 (-20) 75 10 50) zero_noise).
  - reflexivity.
  - vm_compute. discriminate.
Defined.

(** ** The range of the efficiency factor *)

Lemma factor_range (T opt : Q) :
  0 < opt ->
  1 - Qabs (T - opt) / opt <= 1
  /\ (0 <= T -> T <= opt * 2 -> 0 <= 1 - Qabs (T - opt) / opt)
  /\ (T < 0 \/ opt * 2 < T -> 1 - Qabs (T - opt) / opt < 0).
Proof.
  intros Hpos.
  pose proof (Qabs_nonneg (T - opt)) as Ha.
  split; [ | split].
  - assert (0 <= Qabs (T - opt) / opt)
      by (apply Qle_shift_div_l; [exact Hpos | lra]).
    lra.
  - intros H0 H2.
    assert (Qabs (T - opt) / opt <= 1).
    { apply Qle_shift_div_r; [exact Hpos | ].
      apply Qabs_Qle_condition. split; lra. }
    lra.
  - intros Hout.
    assert (1 < Qabs (T - opt) / opt).
    { apply Qlt_shift_div_l; [exact Hpos | ].
      destruct Hout as [Hlo | Hhi].
      - pose proof (Qle_Qabs (- (T - opt))) as Hle.
        rewrite Qabs_opp in Hle. lra.
      - pose proof (Qle_Qabs (T - opt)) as Hle. lra. }
    lra.
Qed.

(** X9. For [optimal_temp > 0] the efficiency factor is computed without
    fault and never exceeds 1; it is non-negative when the temperature lies
    in [0, 2 * optimal_temp] and negative when the temperature is outside
    that interval. *)
Theorem efficiency_range (temperature optimal_temp : Q) (rs : RandomState) :
  0 < optimal_temp ->
  exists f : Q,
    value (ManufacturingMachine.temp_factor temperature optimal_temp rs)
    = Ok f
    /\ f <= 1
    /\ (0 <= temperature -> temperature <= optimal_temp * 2 -> 0 <= f)
    /\ (temperature < 0 \/ optimal_temp * 2 < temperature -> f < 0).
Proof.
  intros Hpos.
  assert (Hne : ~ optimal_temp == 0) by lra.
  unfold ManufacturingMachine.temp_factor, py_div, bind, ret, non_finite.
  destruct (Qeq_bool optimal_temp 0) eqn:E.
  { apply Qeq_bool_iff in E. contradiction. }
  cbn [value]. eexists. split; [reflexivity | ].
  apply factor_range. exact Hpos.
Qed.

Lemma efficiency_range_witness :
  exists f : Q,
    value (ManufacturingMachine.temp_factor 160 75 zero_noise) = Ok f
    /\ f <= 1
    /\ (0 <= 160 -> 160 <= 75 * 2 -> 0 <= f)
    /\ (160 < 0 \/ 75 * 2 < 160 -> f < 0).
Proof.
  apply (efficiency_range 160 75 zero_noise). reflexivity.
Defined.

(** X10. Production gains come from the noise only: on a machine with
    [optimal_temp > 0], [0 <= max_temp <= 2 * optimal_temp] and a
    non-negative production rate, the rate after an update is at most
    [max(0, production_rate + 0.5 * z)] for the second deviate [z]; with
    [z <= 0] it does not increase. *)
Theorem production_gains_only_from_noise
    (m : ManufacturingMachine.t) (rs : RandomState) :
  0 < ManufacturingMachine.optimal_temp m ->
  0 <= ManufacturingMachine.max_temp m ->
  ManufacturingMachine.max_temp m <= ManufacturingMachine.optimal_temp m * 2 ->
  0 <= ManufacturingMachine.production_rate m ->
  exists m' : ManufacturingMachine.t,
    ManufacturingMachine.update m rs = Ok (m', advance 5 rs)
    /\ ManufacturingMachine.production_rate m'
       <= Qmax 0 (ManufacturingMachine.production_rate m
                  + 0.5 * noise_at rs 1)
    /\ (noise_at rs 1 <= 0 ->
        ManufacturingMachine.production_rate m'
        <= ManufacturingMachine.production_rate m).
Proof.
  intros Hpos Hmax Hmax2 Hprod.
  assert (Hne : ~ ManufacturingMachine.optimal_temp m == 0) by lra.
  rewrite (update_ok m rs Hne). eexists. split; [reflexivity | ].
  unfold updated, stepped; cbn -[Qplus Qmult Qminus Qdiv].
  set (T := np.clip _ 0 _).
  assert (HT0 : 0 <= T) by (apply clip_ge_min; exact Hmax).
  assert (HT1 : T <= ManufacturingMachine.optimal_temp m * 2)
    by (apply Qle_trans with (ManufacturingMachine.max_temp m);
        [apply clip_le_max | exact Hmax2]).
  destruct (factor_range T _ Hpos) as (Hf1 & Hf0 & _).
  specialize (Hf0 HT0 HT1).
  set (f := 1 - Qabs (T - ManufacturingMachine.optimal_temp m)
                / ManufacturingMachine.optimal_temp m) in *.
  assert (Hmul : ManufacturingMachine.production_rate m * f
                 <= ManufacturingMachine.production_rate m).
  { assert (0 <= ManufacturingMachine.production_rate m * (1 - f))
      by (apply Qmult_le_0_compat; lra).
    lra. }
  rewrite py_max_spec.
  assert (Hle : Qmax 0 (ManufacturingMachine.production_rate m * f
                        + (0 + 0.5 * noise_at rs 1))
                <= Qmax 0 (ManufacturingMachine.production_rate m
                           + 0.5 * noise_at rs 1))
    by (apply Q.max_le_compat_l; lra).
  split; [exact Hle | ].
  intros Hz. eapply Qle_trans; [exact Hle | ].
  apply Q.max_lub; lra.
Qed.

Lemma production_gains_only_from_noise_witness :
  exists m' : ManufacturingMachine.t,
    ManufacturingMachine.update machine (mkRandomState (fun _ => -1) 0)
    = Ok (m', advance 5 (mkRandomState (fun _ => -1) 0))
    /\ ManufacturingMachine.production_rate m'
       <= Qmax 0 (ManufacturingMachine.production_rate machine
                  + 0.5 * noise_at (mkRandomState (fun _ => -1) 0) 1)
    /\ (noise_at (mkRandomState (fun _ => -1) 0) 1 <= 0 ->
        ManufacturingMachine.production_rate m'
        <= ManufacturingMachine.production_rate machine).
Proof.
  apply (production_gains_only_from_noise machine
           (mkRandomState (fun _ => -1) 0)); vm_compute;
    try reflexivity; discriminate.
Defined.

(** ** The machine without noise *)

Lemma Qpow_comp (q1 q2 : Q) (n : nat) : q1 == q2 -> Qpow q1 n == Qpow q2 n.
Proof.
  intros Hq. induction n as [ | n IH]; [reflexivity | ].
  cbn [Qpow]. rewrite IH, Hq. reflexivity.
Qed.

Lemma Qpow_one (n : nat) : Qpow 1 n == 1.
Proof.
  induction n as [ | n IH]; [reflexivity | ].
  cbn [Qpow]. rewrite IH. reflexivity.
Qed.

Section NoiseFree.

Import ManufacturingMachine.

Lemma updated_zero_noise (m : ManufacturingMachine.t) (rs : RandomState) :
  settled m ->
  (forall i : nat, (i < 5)%nat -> noise_at rs i == 0) ->
  settled (updated m rs)
  /\ max_temp (updated m rs) = max_temp m
  /\ optimal_temp (updated m rs) = optimal_temp m
  /\ temperature (updated m rs) == temperature m
  /\ production_rate (updated m rs) == production_rate m * factor m
  /\ power_consumption (updated m rs) == power_consumption m
  /\ pressure (updated m rs) == pressure m
  /\ stress (updated m rs) == stress m.
Proof.
  intros (Hopt & Ht0 & Ht1 & Ht2 & Hp0 & Hp1 & Hr0) Hz.
  assert (H0 := Hz 0%nat ltac:(lia)). assert (H1 := Hz 1%nat ltac:(lia)).
  assert (H2 := Hz 2%nat ltac:(lia)). assert (H3 := Hz 3%nat ltac:(lia)).
  assert (H4 := Hz 4%nat ltac:(lia)).
  destruct (factor_range (temperature m) (optimal_temp m) Hopt)
    as (_ & Hf0 & _).
  specialize (Hf0 Ht0 Ht2). fold (factor m) in Hf0.
  assert (Ht : temperature (updated m rs) == temperature m)
    by (unfold updated, stepped; cbn -[Qplus Qmult]; rewrite clip_id; lra).
  assert (Hp : power_consumption (updated m rs) == power_consumption m)
    by (unfold updated, stepped; cbn -[Qplus Qmult]; rewrite clip_id; lra).
  assert (Hr : production_rate (updated m rs)
               == production_rate m * factor m).
  { assert (Hf : 1 - Qabs (temperature (updated m rs) - optimal_temp m)
                     / optimal_temp m == factor m)
      by (unfold factor; rewrite Ht; reflexivity).
    unfold updated, stepped in Hf |- *;
      cbn -[Qplus Qmult Qminus Qdiv] in Hf |- *.
    rewrite py_max_spec, Hf, H1.
    assert (0 <= production_rate m * factor m)
      by (apply Qmult_le_0_compat; assumption).
    rewrite Q.max_r by lra. ring. }
  assert (Hmx : max_temp (updated m rs) = max_temp m) by reflexivity.
  assert (Hop : optimal_temp (updated m rs) = optimal_temp m) by reflexivity.
  split.
  { unfold settled. rewrite Hmx, Hop, Ht, Hp, Hr.
    repeat split; try assumption.
    apply Qmult_le_0_compat; assumption. }
  repeat (split; [assumption | ]).
  unfold updated, stepped; cbn -[Qplus Qmult]. split; lra.
Qed.

Lemma updated_n_zero_noise (n : nat) :
  forall (m : ManufacturingMachine.t) (rs : RandomState),
    settled m ->
    (forall i : nat, (i < 5 * n)%nat -> noise_at rs i == 0) ->
    temperature (updated_n m rs n) == temperature m
    /\ production_rate (updated_n m rs n)
       == production_rate m * Qpow (factor m) n
    /\ power_consumption (updated_n m rs n) == power_consumption m
    /\ pressure (updated_n m rs n) == pressure m
    /\ stress (updated_n m rs n) == stress m.
Proof.
  induction n as [ | n IH]; intros m rs Hs Hz.
  - cbn. repeat split; try reflexivity. ring.
  - assert (Hhead : forall i : nat, (i < 5)%nat -> noise_at rs i == 0)
      by (intros i Hi; apply Hz; lia).
    assert (Htail : forall i : nat,
               (i < 5 * n)%nat -> noise_at (advance 5 rs) i == 0)
      by (intros i Hi; rewrite noise_at_advance; apply Hz; lia).
    destruct (updated_zero_noise m rs Hs Hhead)
      as (Hs' & _ & Hop & Ht & Hr & Hp & Hpr & Hst).
    destruct (IH (updated m rs) (advance 5 rs) Hs' Htail)
      as (It & Ir & Ip & Ipr & Ist).
    assert (Hf : factor (updated m rs) == factor m)
      by (unfold factor; rewrite Hop, Ht; reflexivity).
    cbn [updated_n Qpow].
    rewrite It, Ir, Ip, Ipr, Ist, Hr, (Qpow_comp _ _ n Hf).
    repeat split; try assumption. ring.
Qed.

(** X11. Without noise the machine only loses production: on a machine
    inside its bounds with [optimal_temp > 0] and a temperature of at most
    [2 * optimal_temp], a run whose deviates are all zero leaves the
    temperature, the power, the pressure and the stress at their values and
    multiplies the production rate by the efficiency factor once per frame;
    at the optimal temperature the production rate stays as it is. *)
Theorem noise_free_decay
    (d : DigitalTwin.t) (frames : list Z) (rs : RandomState) :
  let m := DigitalTwin.machine d in
  0 < optimal_temp m ->
  0 <= temperature m -> temperature m <= max_temp m ->
  temperature m <= optimal_temp m * 2 ->
  0 <= power_consumption m -> power_consumption m <= 100 ->
  0 <= production_rate m ->
  (forall i : nat, (i < 5 * length frames)%nat -> noise_at rs i == 0) ->
  exists d' : DigitalTwin.t,
    DigitalTwin.run d frames rs = Ok (d', advance (5 * length frames) rs)
    /\ temperature (DigitalTwin.machine d') == temperature m
    /\ production_rate (DigitalTwin.machine d')
       == production_rate m
          * Qpow (1 - Qabs (temperature m - optimal_temp m) / optimal_temp m)
                 (length frames)
    /\ power_consumption (DigitalTwin.machine d') == power_consumption m
    /\ pressure (DigitalTwin.machine d') == pressure m
    /\ stress (DigitalTwin.machine d') == stress m
    /\ (temperature m == optimal_temp m ->
        production_rate (DigitalTwin.machine d') == production_rate m).
Proof.
  intros m Hopt Ht0 Ht1 Ht2 Hp0 Hp1 Hr0 Hz.
  assert (Hne : ~ optimal_temp m == 0) by lra.
  destruct (run_machine frames d rs Hne) as (d' & Hrun & Hm).
  exists d'. split; [exact Hrun | ].
  assert (Hs : settled m) by (unfold settled; repeat split; assumption).
  destruct (updated_n_zero_noise (length frames) m rs Hs Hz)
    as (It & Ir & Ip & Ipr & Ist).
  rewrite Hm. fold m. fold (factor m).
  repeat (split; [assumption | ]).
  intros Heq. rewrite Ir.
  assert (Hf : factor m == 1).
  { unfold factor. rewrite Heq.
    assert (H0 : optimal_temp m - optimal_temp m == 0) by ring.
    rewrite H0. change (Qabs 0) with 0. field. exact Hne. }
  rewrite (Qpow_comp _ _ _ Hf), Qpow_one. ring.
Qed.

End NoiseFree.

Lemma noise_free_decay_witness :
  exists d' : DigitalTwin.t,
    DigitalTwin.run digital_twin (frame_seq 3) zero_noise
    = Ok (d', advance (5 * length (frame_seq 3)) zero_noise)
    /\ ManufacturingMachine.temperature (DigitalTwin.machine d')
       == ManufacturingMachine.temperature machine
    /\ ManufacturingMachine.production_rate (DigitalTwin.machine d')
       == ManufacturingMachine.production_rate machine
          * Qpow (1 - Qabs (ManufacturingMachine.temperature machine
                            - ManufacturingMachine.optimal_temp machine)
                      / ManufacturingMachine.optimal_temp machine)
                 (length (frame_seq 3))
    /\ ManufacturingMachine.power_consumption (DigitalTwin.machine d')
       == ManufacturingMachine.power_consumption machine
    /\ ManufacturingMachine.pressure (DigitalTwin.machine d')
       == ManufacturingMachine.pressure machine
    /\ ManufacturingMachine.stress (DigitalTwin.machine d')
       == ManufacturingMachine.stress machine
    /\ (ManufacturingMachine.temperature machine
        == ManufacturingMachine.optimal_temp machine ->
        ManufacturingMachine.production_rate (DigitalTwin.machine d')
        == ManufacturingMachine.production_rate machine).
Proof.
  apply (noise_free_decay digital_twin (frame_seq 3) zero_noise).
  1-7: vm_compute; try reflexivity; discriminate.
  intros i _. reflexivity.
Defined.

(** ** The rotation as a function of the production history *)

Lemma Qfloor_unique (x : Q) (n : Z) :
  inject_Z n <= x -> x < inject_Z (n + 1) -> Qfloor x = n.
Proof.
  intros Hlo Hhi.
  pose proof (Qfloor_le x) as Flo. pose proof (Qlt_floor x) as Fhi.
  assert (H1 : (n < Qfloor x + 1)%Z)
    by (rewrite Zlt_Qlt; apply Qle_lt_trans with x; assumption).
  assert (H2 : (Qfloor x < n + 1)%Z)
    by (rewrite Zlt_Qlt; apply Qle_lt_trans with x; assumption).
  lia.
Qed.

Lemma Qfloor_shift (x : Q) (k : Z) :
  Qfloor (x + inject_Z k) = (Qfloor x + k)%Z.
Proof.
  pose proof (Qfloor_le x) as Flo. pose proof (Qlt_floor x) as Fhi.
  apply Qfloor_unique.
  - rewrite inject_Z_plus. lra.
  - replace (Qfloor x + k + 1)%Z with ((Qfloor x + 1) + k)%Z by lia.
    rewrite inject_Z_plus. lra.
Qed.

Lemma py_mod_comp (x1 x2 y : Q) : x1 == x2 -> py_mod x1 y == py_mod x2 y.
Proof.
  intros Hx. unfold py_mod.
  assert (Hf : Qfloor (x1 / y) = Qfloor (x2 / y))
    by (apply Qfloor_comp; rewrite Hx; reflexivity).
  rewrite Hf, Hx. reflexivity.
Qed.

Lemma py_mod_small (x y : Q) : 0 <= x -> x < y -> py_mod x y == x.
Proof.
  intros Hlo Hhi. unfold py_mod.
  assert (Hy : 0 < y) by lra.
  assert (Hf : Qfloor (x / y) = 0%Z).
  { apply Qfloor_unique.
    - apply Qle_shift_div_l; [exact Hy | ]. change (inject_Z 0) with 0. lra.
    - apply Qlt_shift_div_r; [exact Hy | ].
      change (inject_Z (0 + 1)) with 1. lra. }
  rewrite Hf. change (inject_Z 0) with 0. ring.
Qed.

Lemma py_mod_mod_add (a b y : Q) :
  ~ y == 0 -> py_mod (py_mod a y + b) y == py_mod (a + b) y.
Proof.
  intros Hy. unfold py_mod.
  set (k := Qfloor (a / y)).
  assert (Hdiv : (a - y * inject_Z k + b) / y
                 == (a + b) / y + inject_Z (- k))
    by (rewrite inject_Z_opp; field; exact Hy).
  rewrite (Qfloor_comp _ _ Hdiv), Qfloor_shift.
  rewrite inject_Z_plus, inject_Z_opp. ring.
Qed.

Lemma Qsum_snoc (l : list Q) (x : Q) : Qsum (l ++ [x]) == Qsum l + x.
Proof.
  induction l as [ | y l IH]; cbn [app Qsum]; [ring | ].
  rewrite IH. ring.
Qed.

(** X12. The rotation is a function of the production history: after any
    run of a fresh driver the rotation is five times the sum of the
    recorded production rates, modulo 360. *)
Theorem rotation_from_production_history
    (m : ManufacturingMachine.t) (frames : list Z) (rs : RandomState) :
  ~ ManufacturingMachine.optimal_temp m == 0 ->
  exists d' : DigitalTwin.t,
    DigitalTwin.run (DigitalTwin.init m) frames rs
    = Ok (d', advance (5 * length frames) rs)
    /\ DigitalTwin.rotation d'
       == py_mod (5 * Qsum (DigitalTwin.prod_history d')) 360.
Proof.
  intros Hne.
  destruct (run_preserves
    (fun x => DigitalTwin.rotation x
              == py_mod (5 * Qsum (DigitalTwin.prod_history x)) 360))
    with (frames := frames) (d := DigitalTwin.init m) (rs := rs)
    as (d' & Hrun & HP & _).
  - intros x frame rs0 r rs0' Hx Hinv Hup.
    destruct (twin_update_inv x frame rs0 rs0' r Hx Hup)
      as (_ & _ & _ & _ & Hprod & _ & _ & _ & Hrot & _).
    rewrite Hrot, Hprod.
    set (p := ManufacturingMachine.production_rate _).
    rewrite (py_mod_comp _ _ 360
               (Qplus_comp _ _ Hinv (p * 5) (p * 5) (Qeq_refl _))).
    rewrite py_mod_mod_add by discriminate.
    apply py_mod_comp. rewrite Qsum_snoc. ring.
  - exact Hne.
  - cbn. reflexivity.
  - exists d'. split; assumption.
Qed.

Lemma rotation_from_production_history_witness :
  exists d' : DigitalTwin.t,
    DigitalTwin.run (DigitalTwin.init machine) (frame_seq 12)
                    (mkRandomState (fun i => inject_Z (Z.of_nat i)) 0)
    = Ok (d', advance (5 * length (frame_seq 12))
                      (mkRandomState (fun i => inject_Z (Z.of_nat i)) 0))
    /\ DigitalTwin.rotation d'
       == py_mod (5 * Qsum (DigitalTwin.prod_history d')) 360.
Proof.
  apply (rotation_from_production_history machine (frame_seq 12)
           (mkRandomState (fun i => inject_Z (Z.of_nat i)) 0)).
  vm_compute. discriminate.
Defined.

(** X13. The modulo acts only on a full turn: on a driver with a rotation
    of at least 0, a frame whose updated production rate keeps
    [rotation + production_rate * 5] below 360 leaves exactly that sum as
    the rotation; with an updated production rate of zero and a rotation
    below 360 the rotation does not move. *)
Theorem rotation_without_wrap
    (d : DigitalTwin.t) (frame : Z) (rs : RandomState) :
  0 <= DigitalTwin.rotation d ->
  ~ ManufacturingMachine.optimal_temp (DigitalTwin.machine d) == 0 ->
  exists r : DigitalTwin.artists * DigitalTwin.t,
    DigitalTwin.update d frame rs = Ok (r, advance 5 rs)
    /\ (let p := ManufacturingMachine.production_rate
                   (DigitalTwin.machine (snd r)) in
        (DigitalTwin.rotation d + p * 5 < 360 ->
         DigitalTwin.rotation (snd r) == DigitalTwin.rotation d + p * 5)
        /\ (p == 0 -> DigitalTwin.rotation d < 360 ->
            DigitalTwin.rotation (snd r) == DigitalTwin.rotation d)).
Proof.
  intros Hrot Hne.
  destruct (twin_update_ok d frame rs Hne) as (r & Hup & _).
  destruct (twin_update_inv d frame rs _ r Hne Hup)
    as (_ & Hm & _ & _ & _ & _ & _ & _ & Hr & _).
  exists r. split; [exact Hup | ]. cbv zeta.
  rewrite Hr, Hm.
  assert (Hp : 0 <= ManufacturingMachine.production_rate
                      (updated (DigitalTwin.machine d) rs))
    by (unfold updated, stepped; cbn -[Qplus Qmult Qminus Qdiv];
        apply py_max_ge_l).
  split.
  - intros Hlt. apply py_mod_small; lra.
  - intros Hz Hlt. rewrite py_mod_small by lra. lra.
Qed.

Lemma rotation_without_wrap_witness :
  exists r : DigitalTwin.artists * DigitalTwin.t,
    DigitalTwin.update digital_twin 0 zero_noise
    = Ok (r, advance 5 zero_noise)
    /\ (let p := ManufacturingMachine.production_rate
                   (DigitalTwin.machine (snd r)) in
        (DigitalTwin.rotation digital_twin + p * 5 < 360 ->
         DigitalTwin.rotation (snd r)
         == DigitalTwin.rotation digital_twin + p * 5)
        /\ (p == 0 -> DigitalTwin.rotation digital_twin < 360 ->
            DigitalTwin.rotation (snd r)
            == DigitalTwin.rotation digital_twin)).
Proof.
  apply (rotation_without_wrap digital_twin 0 zero_noise);
    vm_compute; discriminate.
Defined.

(** ** The configuration *)

(** X14. The configuration is never written: after any run on a machine
    with a non-zero [optimal_temp], [max_temp] and [optimal_temp] are the
    values the machine had before, so the precondition of the division
    holds for every later frame. *)
Theorem configuration_is_immutable
    (d : DigitalTwin.t) (frames : list Z) (rs : RandomState) :
  ~ ManufacturingMachine.optimal_temp (DigitalTwin.machine d) == 0 ->
  exists d' : DigitalTwin.t,
    DigitalTwin.run d frames rs = Ok (d', advance (5 * length frames) rs)
    /\ ManufacturingMachine.max_temp (DigitalTwin.machine d')
       = ManufacturingMachine.max_temp (DigitalTwin.machine d)
    /\ ManufacturingMachine.optimal_temp (DigitalTwin.machine d')
       = ManufacturingMachine.optimal_temp (DigitalTwin.machine d)
    /\ ~ ManufacturingMachine.optimal_temp (DigitalTwin.machine d') == 0.
Proof.
  intros Hne.
  destruct (run_preserves (fun _ => True)) with
    (frames := frames) (d := d) (rs := rs) as (d' & Hrun & _ & Hopt & Hmax).
  - intros; exact I.
  - exact Hne.
  - exact I.
  - exists d'. repeat split; try assumption. rewrite Hopt. exact Hne.
Qed.

Lemma configuration_is_immutable_witness :
  exists d' : DigitalTwin.t,
    DigitalTwin.run digital_twin (frame_seq 200)
                    (mkRandomState (fun i => inject_Z (Z.of_nat i) - 9) 0)
    = Ok (d', advance (5 * length (frame_seq 200))
                      (mkRandomState (fun i => inject_Z (Z.of_nat i) - 9) 0))
    /\ ManufacturingMachine.max_temp (DigitalTwin.machine d')
       = ManufacturingMachine.max_temp (DigitalTwin.machine digital_twin)
    /\ ManufacturingMachine.optimal_temp (DigitalTwin.machine d')
       = ManufacturingMachine.optimal_temp (DigitalTwin.machine digital_twin)
    /\ ~ ManufacturingMachine.optimal_temp (DigitalTwin.machine d') == 0.
Proof.
  apply (configuration_is_immutable digital_twin (frame_seq 200)
           (mkRandomState (fun i => inject_Z (Z.of_nat i) - 9) 0)).
  vm_compute. discriminate.
Defined.
